(** * Planning board of obsidian-proletarian-wizard

    A shallow embedding of [src/ui/PlanningComponent.tsx] (bucketing of the
    todos into columns, WIP styles, drop commands) and of the status
    toggle of [src/Views/TodoStatusComponent.tsx], with the properties of
    the planning engine stated over it. *)

From Stdlib Require Import ZArith Lia Bool Ascii.
From stdpp Require Import base strings pretty gmap list.

Local Open Scope Z_scope.

(** ** Dates

    A luxon [DateTime] is compared through its timestamp ([valueOf]), so a
    valid [DateTime] is its number of milliseconds since the epoch; the
    zone is taken to be UTC (a day is always 86 400 000 ms). An invalid
    [DateTime] never reaches a comparison: [findTodoDate] turns it into
    [null]. *)
Module Luxon.

Definition DateTime : Type := Z.

Definition MS_PER_DAY : Z := 86400000.

(** Number of the (UTC) day of an instant, day 0 being 1970-01-01. *)
Definition dayNumber (t : DateTime) : Z := t / MS_PER_DAY.

Definition timeOfDay (t : DateTime) : Z := t mod MS_PER_DAY.

(** [dt.startOf("day")] *)
Definition startOfDay (t : DateTime) : DateTime := dayNumber t * MS_PER_DAY.

(** [dt.plus({ day: n })], [dt.plus({ weeks: n })], [dt.minus(...)] *)
Definition plusDays (t : DateTime) (n : Z) : DateTime := t + n * MS_PER_DAY.
Definition plusWeeks (t : DateTime) (n : Z) : DateTime := plusDays t (7 * n).
Definition minusDays (t : DateTime) (n : Z) : DateTime := plusDays t (- n).
Definition minusWeeks (t : DateTime) (n : Z) : DateTime := plusWeeks t (- n).

(** [dt.weekday]: ISO weekday, 1 is Monday and 7 is Sunday
  (1970-01-01 was a Thursday). *)
Definition weekday (t : DateTime) : Z := (dayNumber t + 3) mod 7 + 1.

(** [dt.set({ weekday: w })]: the day of the same ISO week with the given
  weekday, the time of day kept. *)
Definition setWeekday (t : DateTime) (w : Z) : DateTime :=
plusDays t (w - weekday t).

(** *** The proleptic Gregorian calendar *)

Definition isLeapYear (y : Z) : bool :=
(y mod 4 =? 0) && (negb (y mod 100 =? 0) || (y mod 400 =? 0)).

Definition daysInMonth (y m : Z) : Z :=
if m =? 2 then (if isLeapYear y then 29 else 28)
else if (m =? 4) || (m =? 6) || (m =? 9) || (m =? 11) then 30
else 31.

(** Day number of the civil date [y]-[m]-[d]; years are counted from
  March, in eras of 400 years (146 097 days). *)
Definition daysFromCivil (y m d : Z) : Z :=
let y0 := if m <=? 2 then y - 1 else y in
let era := y0 / 400 in
let yoe := y0 mod 400 in
let mp := if 2 <? m then m - 3 else m + 9 in
let doy := (153 * mp + 2) / 5 + d - 1 in
let doe := yoe * 365 + yoe / 4 - yoe / 100 + doy in
era * 146097 + doe - 719468.

(** Civil date of a day of the era: year of the era (March based,
  before the January correction), month and day. *)
Definition civilOfEraDay (doe : Z) : Z * Z * Z :=
let yoe := (doe - doe / 1460 + doe / 36524 - doe / 146096) / 365 in
let doy := doe - (365 * yoe + yoe / 4 - yoe / 100) in
let mp := (5 * doy + 2) / 153 in
let d := doy - (153 * mp + 2) / 5 + 1 in
let m := if mp <? 10 then mp + 3 else mp - 9 in
((if m <=? 2 then yoe + 1 else yoe), m, d).

Definition addYears (k : Z) (c : Z * Z * Z) : Z * Z * Z :=
let '(y, m, d) := c in (y + k, m, d).

(** Civil date [(year, month, day)] of a day number. *)
Definition civilFromDays (z : Z) : Z * Z * Z :=
let z0 := z + 719468 in
addYears (z0 / 146097 * 400) (civilOfEraDay (z0 mod 146097)).

(** [dt.startOf("month")] *)
Definition startOfMonth (t : DateTime) : DateTime :=
let '(y, m, _) := civilFromDays (dayNumber t) in
daysFromCivil y m 1 * MS_PER_DAY.

(** [dt.plus({ months: n })]: the month is moved, the day is clamped to
  the length of the month reached, the time of day is kept. *)
Definition plusMonths (t : DateTime) (n : Z) : DateTime :=
let '(y, m, d) := civilFromDays (dayNumber t) in
let k := y * 12 + (m - 1) + n in
let y' := k / 12 in
let m' := k mod 12 + 1 in
let d' := Z.min d (daysInMonth y' m') in
daysFromCivil y' m' d' * MS_PER_DAY + timeOfDay t.

(** *** Formatting *)

Definition digit (n : Z) : string :=
String (Ascii.ascii_of_nat (48 + Z.to_nat (n mod 10))) EmptyString.

(** Decimal digits of a natural number, padded with zeros to [w] digits
  at least ([padStart]). *)
Fixpoint padStart (w : nat) (n : Z) : string :=
match w with
| O => EmptyString
| S w' => String.app (padStart w' (n / 10)) (digit n)
end.

Definition weekdayName (w : Z) : string :=
if w =? 1 then "Monday" else if w =? 2 then "Tuesday"
else if w =? 3 then "Wednesday" else if w =? 4 then "Thursday"
else if w =? 5 then "Friday" else if w =? 6 then "Saturday"
else "Sunday".

(** [dt.toFormat("dd/MM")] *)
Definition toFormat_ddMM (t : DateTime) : string :=
let '(_, m, d) := civilFromDays (dayNumber t) in
String.app (padStart 2 d) (String.app "/" (padStart 2 m)).

(** [dt.toFormat("cccc dd/MM")] *)
Definition toFormat_cccc_ddMM (t : DateTime) : string :=
String.app (weekdayName (weekday t)) (String.app " " (toFormat_ddMM t)).

(** [dt.toISODate()], for the years 0 to 9999 (four digits). *)
Definition toISODate (t : DateTime) : string :=
let '(y, m, d) := civilFromDays (dayNumber t) in
String.app (padStart 4 y)
  (String.app "-" (String.app (padStart 2 m) (String.app "-" (padStart 2 d)))).

(** [dt.toISO()], which is also [dt.toString()]: the system zone, here at
    offset zero, prints its offset as [+00:00]. *)
Definition toISO (t : DateTime) : string :=
let s := timeOfDay t in
String.app (toISODate t)
  (String.app "T" (String.app (padStart 2 (s / 3600000))
  (String.app ":" (String.app (padStart 2 (s / 60000 mod 60))
  (String.app ":" (String.app (padStart 2 (s / 1000 mod 60))
  (String.app "." (String.app (padStart 3 (s mod 1000)) "+00:00")))))))).

(** The instant at midnight of a civil date. *)
Definition ymd (y m d : Z) : DateTime := daysFromCivil y m d * MS_PER_DAY.

(** The date-only form [YYYY-MM-DD] of [DateTime.fromISO]: a parser that
  accepts exactly the valid calendar dates written with ten characters,
  at midnight. *)
Definition digitOf (c : Ascii.ascii) : option Z :=
let n := Z.of_nat (Ascii.nat_of_ascii c) in
if (48 <=? n) && (n <=? 57) then Some (n - 48) else None.

Definition number (ds : list Ascii.ascii) : option Z :=
foldl (fun acc c =>
         match acc, digitOf c with
         | Some a, Some d => Some (10 * a + d)
         | _, _ => None
         end) (Some 0) ds.

Definition fromISODate (s : string) : option DateTime :=
match s with
| String y1 (String y2 (String y3 (String y4 (String "-"%char
    (String m1 (String m2 (String "-"%char (String d1 (String d2 EmptyString))))))))) =>
    match number [y1; y2; y3; y4], number [m1; m2], number [d1; d2] with
    | Some y, Some m, Some d =>
        if (1 <=? m) && (m <=? 12) && (1 <=? d) && (d <=? daysInMonth y m)
        then Some (ymd y m d) else None
    | _, _, _ => None
    end
| _ => None
end.

#[global] Arguments dayNumber : simpl never.
#[global] Arguments timeOfDay : simpl never.
#[global] Arguments startOfDay : simpl never.
#[global] Arguments plusDays : simpl never.
#[global] Arguments plusWeeks : simpl never.
#[global] Arguments minusDays : simpl never.
#[global] Arguments minusWeeks : simpl never.
#[global] Arguments weekday : simpl never.
#[global] Arguments setWeekday : simpl never.
#[global] Arguments daysInMonth : simpl never.
#[global] Arguments daysFromCivil : simpl never.
#[global] Arguments civilOfEraDay : simpl never.
#[global] Arguments civilFromDays : simpl never.
#[global] Arguments startOfMonth : simpl never.
#[global] Arguments plusMonths : simpl never.
#[global] Arguments toFormat_ddMM : simpl never.
#[global] Arguments toFormat_cccc_ddMM : simpl never.
#[global] Arguments toISODate : simpl never.
#[global] Arguments toISO : simpl never.

End Luxon.

Import Luxon.

(** ** The todo model *)

(** Modelled from the spec: the enumeration [TodoStatus] of
    [src/domain/TodoItem], a closed enumeration of six statuses. *)
Inductive TodoStatus : Type :=
  | AttentionRequired | Canceled | Complete | Delegated | InProgress | Todo.

#[global] Instance TodoStatus_eq_dec : EqDecision TodoStatus.
Proof. solve_decision. Defined.

(** A value of the attribute mapping: a string or a boolean. *)
Inductive AttrValue : Type :=
  | AttrString (s : string)
  | AttrBool (b : bool).

#[global] Instance AttrValue_eq_dec : EqDecision AttrValue.
Proof. solve_decision. Defined.

(** JavaScript truthiness: the empty string and [false] are falsy. *)
Definition truthy (v : AttrValue) : bool :=
  match v with
  | AttrString s => negb (String.eqb s "")
  | AttrBool b => b
  end.

(** The template literal [`${v}`]. *)
Definition templateString (v : AttrValue) : string :=
  match v with
  | AttrString s => s
  | AttrBool true => "true"
  | AttrBool false => "false"
  end.

(** Modelled from the spec: the type [TodoItem] of [src/domain/TodoItem],
    with the fields this code reads: the identifier that [getTodoId]
    derives from the source location, the status, and the optional
    attribute mapping ([None] is an absent mapping). *)
Record TodoItem : Type := mkTodo {
  todoId : string;
  status : TodoStatus;
  attributes : option (gmap string AttrValue);
}.

#[global] Instance TodoItem_eq_dec : EqDecision TodoItem.
Proof. solve_decision. Defined.

Definition getTodoId (todo : TodoItem) : string := todoId todo.

(** The assignment [todo.status = s]. *)
Definition setStatus (todo : TodoItem) (s : TodoStatus) : TodoItem :=
  {| todoId := todoId todo; status := s; attributes := attributes todo |}.

(** Modelled from the spec: the settings type [ProletarianWizardSettings],
    with the fields this code reads; [firstWeekday] may be absent. *)
Record ProletarianWizardSettings : Type := mkSettings {
  dueDateAttribute : string;
  completedDateAttribute : string;
  selectedAttribute : string;
  startedAttribute : string;
  firstWeekday : option Z;
  showWeekEnds : bool;
  trackStartTime : bool;
}.

Record WipLimit : Type := mkWipLimit {
  isLimited : bool;
  dailyLimit : Z;
}.

Record SearchParameters : Type := mkSearch {
  searchPhrase : string;
  fuzzySearch : bool;
}.

(** Modelled from the spec: the planning settings kept by
    [PlanningSettingsStore]. *)
Record PlanningSettings : Type := mkPlanning {
  searchParameters : SearchParameters;
  hideEmpty : bool;
  wipLimit : WipLimit;
}.

(** ** Collaborators: logger and file operations *)

(** A request to the persistence collaborator [FileOperations]. *)
Inductive Request : Type :=
  | UpdateAttribute (todo : TodoItem) (attribute value : string)
  | RemoveAttribute (todo : TodoItem) (attribute : string)
  | UpdateTodoStatus (todo : TodoItem) (completedAttribute : string).

(** What a command does, in the order in which it happens. *)
Inductive Event : Type :=
  | LogDebug (msg : string)
  | LogWarn (msg : string)
  | Issued (r : Request)
  | Fulfilled (r : Request)
  | Rejected (r : Request)
  | Thrown (error : string).

(** A promise that has run: its events, and its value when fulfilled
    ([None] when rejected). *)
Definition Promise (A : Type) : Type := list Event * option A.

Definition resolved {A} (a : A) : Promise A := ([], Some a).

(** [p.then(f)]: [f] runs after [p] is fulfilled, and not at all when [p]
    is rejected. *)
Definition andThen {A B} (p : Promise A) (f : A -> Promise B) : Promise B :=
  match p with
  | (tr, Some a) => let '(tr', b) := f a in (tr ++ tr', b)
  | (tr, None) => (tr, None)
  end.

Notation "p '>>then' f" := (andThen p f) (at level 61, left associativity).

(** What a drop on a column does with the identifier of the dropped todo. *)
Inductive DropTarget : Type :=
  | MoveToDate (date : DateTime)
  | MoveToDateAndStatus (date : DateTime) (status : TodoStatus)
  | RemoveDate.

(** The properties handed to [PlanningTodoColumn]. *)
Record Column : Type := mkColumn {
  icon : string;
  title : string;
  colTodos : list TodoItem;
  hideIfEmpty : bool;
  onTodoDropped : option DropTarget;
  substyle : option string;
}.

(** ** [PlanningComponent] *)

Definition statusIsDone (s : TodoStatus) : bool :=
  bool_decide (s = Complete) || bool_decide (s = Canceled).

(** [status.contains(s)] *)
Definition contains (l : list TodoStatus) (s : TodoStatus) : bool :=
  existsb (fun x => bool_decide (x = s)) l.

Section PlanningComponent.

(** luxon's [DateTime.fromISO], [None] standing for an invalid result. *)
Variable fromISO : string -> option DateTime.
(** [new TodoMatcher(searchPhrase, fuzzySearch).matches] *)
Variable TodoMatcher : string -> bool -> TodoItem -> bool.
(** Whether the file operation of a request succeeds. *)
Variable persist : Request -> bool.

Variable settings : ProletarianWizardSettings.
Variable planningSettings : PlanningSettings.
(** The snapshot of the todo index, and [DateTime.now()]. *)
Variable todos : list TodoItem.
Variable now : DateTime.

Definition findTodoDate (todo : TodoItem) (attribute : string) : option DateTime :=
  match attributes todo with
  | None => None
  | Some attrs =>
      match attrs !! attribute with
      | Some attr => if truthy attr then fromISO (templateString attr) else None
      | None => None
      end
  end.

Definition filteredTodos : list TodoItem :=
  let sp := searchParameters planningSettings in
  List.filter (TodoMatcher (searchPhrase sp) (fuzzySearch sp)) todos.

Definition dateIsInRange (from to : option DateTime) (date : option DateTime) : bool :=
  match date with
  | None => false
  | Some d =>
      (match from with None => true | Some f => f <=? d end)
      && (match to with None => true | Some t => d <? t end)
  end.

Definition isSelected (todo : TodoItem) : bool :=
  match attributes todo with
  | None => false
  | Some attrs =>
      match attrs !! selectedAttribute settings with
      | Some v => truthy v
      | None => false
      end
  end.

Definition todoInRange (from to : option DateTime) (includeSelected : bool)
    (todo : TodoItem) : bool :=
  let isDone := statusIsDone (status todo) in
  let dueDate := findTodoDate todo (dueDateAttribute settings) in
  let completedDate := findTodoDate todo (completedDateAttribute settings) in
  let dueDateIsInRange := dateIsInRange from to dueDate in
  let completedDateIsInRange := dateIsInRange from to completedDate in
  dueDateIsInRange
  || (includeSelected && isSelected todo
      && ((isDone && completedDateIsInRange) || negb isDone)).

Definition getTodosByDate (from to : option DateTime) (includeSelected : bool)
    : list TodoItem :=
  List.filter
    (fun todo => bool_decide (is_Some (attributes todo))
                 && todoInRange from to includeSelected todo)
    filteredTodos.

Definition statusIsOpen (s : TodoStatus) : bool :=
  negb (bool_decide (s = Canceled)) && negb (bool_decide (s = Complete)).

Definition getTodosWithNoDate : list TodoItem :=
  List.filter
    (fun todo =>
       negb (bool_decide (is_Some (findTodoDate todo (dueDateAttribute settings))))
       && match attributes todo with
          | None => false
          | Some attrs =>
              negb (match attrs !! selectedAttribute settings with
                    | Some v => truthy v
                    | None => false
                    end)
          end
       && statusIsOpen (status todo))
    filteredTodos.

Definition findTodo (id : string) : option TodoItem :=
  List.find (fun todo => String.eqb (getTodoId todo) id) todos.

(** *** File operations *)

Definition request (r : Request) : Promise unit :=
  if persist r then ([Issued r; Fulfilled r], Some tt)
  else ([Issued r; Rejected r], None).

Definition updateAttributeAsync (todo : TodoItem) (attribute value : string)
    : Promise unit :=
  request (UpdateAttribute todo attribute value).

Definition removeAttributeAsync (todo : TodoItem) (attribute : string)
    : Promise unit :=
  request (RemoveAttribute todo attribute).

Definition updateTodoStatus (todo : TodoItem) (completedAttribute : string)
    : Promise unit :=
  request (UpdateTodoStatus todo completedAttribute).

(** *** Drop commands: the events of one call *)

Definition movingMessage (id : string) (date : DateTime) : string :=
  String.app "Moving " (String.app id (String.app " to " (toISO date))).

Definition notFoundMessage (id : string) : string :=
  String.app "Todo " (String.app id " not found, couldn't move").

Definition moveToDate (date : DateTime) (id : string) : list Event :=
  let todo := findTodo id in
  LogDebug (movingMessage id date) ::
  match todo with
  | None => [LogWarn (notFoundMessage id)]
  | Some todo =>
      fst (updateAttributeAsync todo (dueDateAttribute settings) (toISODate date))
  end.

Definition removeDate (id : string) : list Event :=
  let todo := findTodo id in
  match todo with
  | None => []
  | Some todo => fst (removeAttributeAsync todo (dueDateAttribute settings))
  end.

(** The last callback of the chain of [moveToDateAndStatus]; reading an
    attribute of an absent mapping throws. *)
Definition trackStart (todo : TodoItem) (status : TodoStatus) : Promise unit :=
  if trackStartTime settings then
    match attributes todo with
    | None => ([Thrown "TypeError"], None)
    | Some attrs =>
        if negb (match attrs !! startedAttribute settings with
                 | Some v => truthy v
                 | None => false
                 end)
           && bool_decide (status = InProgress)
        then updateAttributeAsync todo (startedAttribute settings) (toISODate now)
        else resolved tt
    end
  else resolved tt.

Definition moveToDateAndStatus (date : DateTime) (status : TodoStatus)
    (id : string) : list Event :=
  let todo := findTodo id in
  LogDebug (movingMessage id date) ::
  match todo with
  | None => [LogWarn (notFoundMessage id)]
  | Some todo =>
      let todo := setStatus todo status in
      fst (updateAttributeAsync todo (dueDateAttribute settings) (toISODate date)
           >>then (fun _ => updateTodoStatus todo (completedDateAttribute settings))
           >>then (fun _ => trackStart todo status))
  end.

Definition runDrop (target : DropTarget) (id : string) : list Event :=
  match target with
  | MoveToDate date => moveToDate date id
  | MoveToDateAndStatus date status => moveToDateAndStatus date status id
  | RemoveDate => removeDate id
  end.

(** *** Columns *)

Definition getTodosByDateAndStatus (from to : DateTime) (statuses : list TodoStatus)
    : list TodoItem :=
  let todos := getTodosByDate (Some from) (Some to) true in
  List.filter (fun todo => contains statuses (status todo)) todos.

Definition todoColumn (icon title : string) (todos : list TodoItem)
    (hideIfEmpty : bool) (onTodoDropped : option DropTarget)
    (substyle : option string) : Column :=
  mkColumn icon title todos hideIfEmpty onTodoDropped substyle.

(** [None] is the [undefined] of the path without [return]. *)
Definition getTodayWipStyle : option string :=
  if negb (isLimited (wipLimit planningSettings)) then Some ""%string
  else
    let today := startOfDay now in
    let tomorrow := plusDays today 1 in
    let todos := getTodosByDateAndStatus today tomorrow
                   [AttentionRequired; Delegated; InProgress; Todo] in
    if dailyLimit (wipLimit planningSettings) <? Z.of_nat (length todos)
    then Some "pw-planning-column-content--wip-exceeded"%string
    else None.

Definition getTodayColumns : list Column :=
  let today := startOfDay now in
  let tomorrow := plusDays today 1 in
  [ todoColumn "◻️" "Todo"
      (getTodosByDateAndStatus today tomorrow [Todo])
      false (Some (MoveToDateAndStatus today Todo)) (Some "today"%string);
    todoColumn "⏩" "In progress"
      (getTodosByDateAndStatus today tomorrow [AttentionRequired; Delegated; InProgress])
      false (Some (MoveToDateAndStatus today InProgress)) (Some "today"%string);
    todoColumn "✅" "Done"
      (getTodosByDateAndStatus today tomorrow [Canceled; Complete])
      false (Some (MoveToDateAndStatus today Complete)) (Some "today"%string) ].

Definition getWipStyle (todos : list TodoItem) : string :=
  if isLimited (wipLimit planningSettings) then
    if dailyLimit (wipLimit planningSettings) <? Z.of_nat (length todos)
    then "wip-exceeded"
    else ""
  else "".

Definition firstWeekdayOrDefault : Z :=
  match firstWeekday settings with Some w => w | None => 1 end.

(** The loop of the daily brackets, [n] iterations being left;
    [%] is the remainder of JavaScript, with the sign of the dividend. *)
Fixpoint dailyBrackets (n : nat) (i : Z) (dayStart : DateTime) : list Column :=
  match n with
  | O => []
  | S n' =>
      let dayEnd := plusDays dayStart 1 in
      let localDay := Z.rem (weekday dayStart - firstWeekdayOrDefault + 7) 7 + 1 in
      if negb (showWeekEnds settings) && (6 <=? localDay) then
        dailyBrackets n' (i + 1) dayEnd
      else
        let label := if i =? 0 then "Tomorrow"%string
                     else toFormat_cccc_ddMM dayStart in
        let todos := getTodosByDate (Some dayStart) (Some dayEnd) false in
        let style := getWipStyle todos in
        todoColumn "📅" label todos (hideEmpty planningSettings)
          (Some (MoveToDate dayStart)) (Some style)
        :: dailyBrackets n' (i + 1) dayEnd
  end.

Definition periodLabel (kind : string) (i : Z) (start stop : DateTime) : string :=
  String.app kind (String.app " +" (String.app (pretty (i + 1))
    (String.app " (" (String.app (toFormat_ddMM start)
    (String.app " - " (String.app (toFormat_ddMM (minusDays stop 1)) ")")))))).

Fixpoint weeklyBrackets (n : nat) (i : Z) (weekStart : DateTime) : list Column :=
  match n with
  | O => []
  | S n' =>
      let weekEnd := plusWeeks weekStart 1 in
      let label := if i =? 0 then "Next week"%string
                   else periodLabel "Week" i weekStart weekEnd in
      let todos := getTodosByDate (Some weekStart) (Some weekEnd) false in
      let style := getWipStyle todos in
      todoColumn "📅" label todos (hideEmpty planningSettings)
        (Some (MoveToDate weekStart)) (Some style)
      :: weeklyBrackets n' (i + 1) weekEnd
  end.

(** The loop of the monthly brackets, with the value of [monthStart]
    when it ends. *)
Fixpoint monthlyBrackets (n : nat) (i : Z) (monthStart : DateTime)
    : list Column * DateTime :=
  match n with
  | O => ([], monthStart)
  | S n' =>
      let monthEnd := plusMonths monthStart 1 in
      let label := if i =? 0 then "Next month"%string
                   else periodLabel "Month" i monthStart monthEnd in
      let todos := getTodosByDate (Some monthStart) (Some monthEnd) false in
      let style := getWipStyle todos in
      let '(rest, last) := monthlyBrackets n' (i + 1) monthEnd in
      (todoColumn "📅" label todos (hideEmpty planningSettings)
         (Some (MoveToDate monthStart)) (Some style) :: rest, last)
  end.

Definition today : DateTime := startOfDay now.

Definition backlogColumn : Column :=
  todoColumn "📃" "Backlog" getTodosWithNoDate false (Some RemoveDate) None.

Definition pastColumn : Column :=
  todoColumn "🕸️" "Past"
    (List.filter (fun todo => statusIsOpen (status todo))
       (getTodosByDate None (Some today) false))
    true None None.

Definition startOfThisWeek : DateTime :=
  let startOfThisWeek := setWeekday today firstWeekdayOrDefault in
  if today <? startOfThisWeek then minusWeeks startOfThisWeek 1
  else startOfThisWeek.

Definition dailyColumns : list Column := dailyBrackets 6 0 (plusDays today 1).

Definition weeklyColumns : list Column :=
  weeklyBrackets 4 0 (plusWeeks startOfThisWeek 1).

Definition monthlyColumns : list Column * DateTime :=
  monthlyBrackets 3 0 (plusMonths (startOfMonth today) 1).

Definition laterColumn : Column :=
  let monthStart := snd monthlyColumns in
  todoColumn "📅" "Later" (getTodosByDate (Some monthStart) None false)
    (hideEmpty planningSettings) (Some (MoveToDate monthStart)) None.

Definition getColumns : list Column :=
  backlogColumn :: pastColumn
  :: dailyColumns ++ weeklyColumns ++ fst monthlyColumns ++ [laterColumn].

(** The columns that follow Backlog and Past. *)
Definition futureColumns : list Column :=
  dailyColumns ++ weeklyColumns ++ fst monthlyColumns ++ [laterColumn].

(** The todos of a range, the selection being ignored. *)
Definition rangeTodos (r : option DateTime * option DateTime) : list TodoItem :=
  getTodosByDate (fst r) (snd r) false.

(** The class of the Today group: an [undefined] style is printed by
    the template literal. *)
Definition todayClassName : string :=
  String.app "pw-planning-today "
    (match getTodayWipStyle with Some s => s | None => "undefined"%string end).

End PlanningComponent.

(** ** [TodoStatusComponent] *)

Section TodoStatusComponent.

Variable persist : Request -> bool.
Variable settings : ProletarianWizardSettings.

(** The status that a click asks for. *)
Definition toggledStatus (todo : TodoItem) : TodoStatus :=
  let wasCompleted :=
    bool_decide (status todo = Complete) || bool_decide (status todo = Canceled) in
  if wasCompleted then Todo else Complete.

(** The click handler: the events, and the todo as the handler leaves
    it; nothing happens when the default was prevented. *)
Definition onclick (defaultPrevented : bool) (todo : TodoItem)
    : list Event * TodoItem :=
  if defaultPrevented then ([], todo)
  else
    let todo' := setStatus todo (toggledStatus todo) in
    (LogDebug (String.app "Changing status on " (getTodoId todo))
     :: fst (updateTodoStatus persist todo' (completedDateAttribute settings)),
     todo').

(** An item of the status menu, when clicked. *)
Definition changeStatusMenuItem (status : TodoStatus) (todo : TodoItem)
    : list Event * TodoItem :=
  let todo' := setStatus todo status in
  (fst (updateTodoStatus persist todo' (completedDateAttribute settings)), todo').

End TodoStatusComponent.

(** ** The date ranges of the main sequence

    The bounds [from, to) that the loops of [getColumns] hand to
    [getTodosByDate], in the order of the columns. *)

Definition Range : Type := option DateTime * option DateTime.

Definition inRange (d : DateTime) (r : Range) : bool :=
  dateIsInRange (fst r) (snd r) (Some d).

(** Number of ranges of a list that a date falls in. *)
Definition covering (d : DateTime) (rs : list Range) : nat :=
  length (List.filter (inRange d) rs).

Section Ranges.

Variable settings : ProletarianWizardSettings.
Variable now : DateTime.

(** Whether the daily loop skips the day that starts at [dayStart]. *)
Definition skipsDay (dayStart : DateTime) : bool :=
  negb (showWeekEnds settings)
  && (6 <=? Z.rem (weekday dayStart - firstWeekdayOrDefault settings + 7) 7 + 1).

Fixpoint dailyRanges (n : nat) (dayStart : DateTime) : list Range :=
  match n with
  | O => []
  | S n' =>
      let dayEnd := plusDays dayStart 1 in
      if skipsDay dayStart then dailyRanges n' dayEnd
      else (Some dayStart, Some dayEnd) :: dailyRanges n' dayEnd
  end.

Fixpoint weeklyRanges (n : nat) (weekStart : DateTime) : list Range :=
  match n with
  | O => []
  | S n' =>
      let weekEnd := plusWeeks weekStart 1 in
      (Some weekStart, Some weekEnd) :: weeklyRanges n' weekEnd
  end.

(** The ranges of the monthly loop, with the value of [monthStart] when
    it ends. *)
Fixpoint monthlyRanges (n : nat) (monthStart : DateTime) : list Range * DateTime :=
  match n with
  | O => ([], monthStart)
  | S n' =>
      let monthEnd := plusMonths monthStart 1 in
      let '(rest, last) := monthlyRanges n' monthEnd in
      ((Some monthStart, Some monthEnd) :: rest, last)
  end.

Definition firstMonthStart : DateTime := plusMonths (startOfMonth (today now)) 1.

Definition dailyRangesOfNow : list Range := dailyRanges 6 (plusDays (today now) 1).
Definition weeklyRangesOfNow : list Range :=
  weeklyRanges 4 (plusWeeks (startOfThisWeek settings now) 1).
Definition monthlyRangesOfNow : list Range := fst (monthlyRanges 3 firstMonthStart).
Definition laterRange : Range := (Some (snd (monthlyRanges 3 firstMonthStart)), None).

(** The ranges of the columns after Backlog and Past. *)
Definition futureRanges : list Range :=
  dailyRangesOfNow ++ weeklyRangesOfNow ++ monthlyRangesOfNow ++ [laterRange].

End Ranges.

(** The columns of a list in which a todo appears. *)
Definition bucketsOf (todo : TodoItem) (cols : list Column) : list Column :=
  List.filter (fun c => bool_decide (todo ∈ colTodos c)) cols.

(** ** Traces of commands *)

(** The requests issued in a trace, in order. *)
Fixpoint issued (tr : list Event) : list Request :=
  match tr with
  | [] => []
  | Issued r :: tr' => r :: issued tr'
  | _ :: tr' => issued tr'
  end.

Definition Request_eqb (a b : Request) : bool :=
  match a, b with
  | UpdateAttribute t n v, UpdateAttribute t' n' v' =>
      bool_decide (t = t') && String.eqb n n' && String.eqb v v'
  | RemoveAttribute t n, RemoveAttribute t' n' =>
      bool_decide (t = t') && String.eqb n n'
  | UpdateTodoStatus t n, UpdateTodoStatus t' n' =>
      bool_decide (t = t') && String.eqb n n'
  | _, _ => false
  end.

(** A trace is sequential when a request is issued only while no request
    is in flight and none has failed: [pending] is the request in flight,
    [failed] tells that a request was rejected or a callback threw. *)
Fixpoint sequentialFrom (pending : option Request) (failed : bool)
    (tr : list Event) : bool :=
  match tr with
  | [] => true
  | Issued r :: tr' =>
      match pending with
      | None => negb failed && sequentialFrom (Some r) failed tr'
      | Some _ => false
      end
  | Fulfilled r :: tr' =>
      match pending with
      | Some r' => Request_eqb r r' && sequentialFrom None failed tr'
      | None => false
      end
  | Rejected r :: tr' =>
      match pending with
      | Some r' => Request_eqb r r' && sequentialFrom None true tr'
      | None => false
      end
  | Thrown _ :: tr' => sequentialFrom pending true tr'
  | _ :: tr' => sequentialFrom pending failed tr'
  end.

Definition sequential (tr : list Event) : bool := sequentialFrom None false tr.

Definition warnings (tr : list Event) : list string :=
  omap (fun e => match e with LogWarn m => Some m | _ => None end) tr.

(** ** Checking a property on an interval of integers *)

Fixpoint checkFrom (P : Z -> bool) (n : nat) (z : Z) : bool :=
  match n with
  | O => true
  | S n' => P z && checkFrom P n' (z + 1)
  end.

(** What is checked on each day of an era: the civil date is well formed
    and [daysFromCivil] takes it back to the day. *)
Definition eraDayOk (r : Z) : bool :=
  let '(y, m, d) := civilOfEraDay r in
  (0 <=? y) && (y <=? 400) && (1 <=? m) && (m <=? 12) && (1 <=? d)
  && (d <=? daysInMonth y m) && (daysFromCivil y m d =? r - 719468).

(** What is checked on each month [j] of an era, month 0 being January of
    year 0: the civil date of its first day, and its length. *)
Definition eraMonthOk (j : Z) : bool :=
  let y := j / 12 in
  let m := j mod 12 + 1 in
  let z := daysFromCivil y m 1 + 719468 in
  let '(y', m', d') := civilOfEraDay (z mod 146097) in
  (y' + z / 146097 * 400 =? y) && (m' =? m) && (d' =? 1)
  && (daysFromCivil ((j + 1) / 12) ((j + 1) mod 12 + 1) 1
      =? daysFromCivil y m 1 + daysInMonth y m).

(** Whether a todo has an attribute mapping in which the started
    attribute is absent or falsy ([!todo.attributes[startedAttribute]]
    evaluates to [true]; on an absent mapping it throws). *)
Definition startedIsEmpty (settings : ProletarianWizardSettings) (todo : TodoItem) : bool :=
  match attributes todo with
  | None => false
  | Some attrs =>
      negb (match attrs !! startedAttribute settings with
            | Some v => truthy v
            | None => false
            end)
  end.

(** ** The status icon and the status menu of [TodoStatusComponent] *)

(** [statusToIcon]; the [default] branch of the source is not reached by
    a value of the enumeration. *)
Definition statusToIcon (status : TodoStatus) : string :=
  match status with
  | Complete => "✔"
  | AttentionRequired => "❗"
  | Canceled => "❌"
  | Delegated => "👬"
  | InProgress => "‍⏩"
  | Todo => "⚪️"
  end.

(** An item of the status menu: its title, and the status that its click
    handler sets. *)
Record MenuItem : Type := mkMenuItem {
  itemTitle : string;
  itemStatus : TodoStatus;
}.

(** The items that [onauxclick] adds to the menu, in order. *)
Definition statusMenu : list MenuItem :=
  [ mkMenuItem "◻️ Mark as todo" Todo;
    mkMenuItem "✔️ Mark as complete" Complete;
    mkMenuItem "⏩ Mark as in progress" InProgress;
    mkMenuItem "❗ Mark as attention required" AttentionRequired;
    mkMenuItem "👬 Mark as delegated" Delegated;
    mkMenuItem "❌ Mark as cancelled" Canceled ].

(** The handler of the secondary click: the menu that is shown, none when
    the default was prevented. *)
Definition onauxclick (defaultPrevented : bool) : option (list MenuItem) :=
  if defaultPrevented then None else Some statusMenu.

(** ** Views of requests and columns *)

(** The todo that a request is about, and the attribute that it writes
    or removes ([None] for a status update). *)
Definition requestTodo (r : Request) : TodoItem :=
  match r with
  | UpdateAttribute todo _ _ => todo
  | RemoveAttribute todo _ => todo
  | UpdateTodoStatus todo _ => todo
  end.

Definition requestAttribute (r : Request) : option string :=
  match r with
  | UpdateAttribute _ attribute _ => Some attribute
  | RemoveAttribute _ attribute => Some attribute
  | UpdateTodoStatus _ _ => None
  end.

(** A prefix of a column title that is enough to tell the titles of the
    main sequence apart: the number of the period is part of it for the
    numbered weeks and months. *)
Definition titleKey (t : string) : string :=
  if String.prefix "Month" t then String.substring 0 8 t
  else if String.prefix "Week" t then String.substring 0 7 t
  else String.substring 0 6 t.

(** Index of the month of an instant, month 0 being January of year 0,
    and the midnight that starts the month of an index. *)
Definition monthIndex (t : DateTime) : Z :=
  let '(y, m, _) := civilFromDays (dayNumber t) in y * 12 + (m - 1).

Definition monthStartOf (k : Z) : DateTime := ymd (k / 12) (k mod 12 + 1) 1.

Section ColumnViews.

Variable fromISO : string -> option DateTime.
Variable TodoMatcher : string -> bool -> TodoItem -> bool.
Variable settings : ProletarianWizardSettings.
Variable planningSettings : PlanningSettings.
Variable todos : list TodoItem.
Variable now : DateTime.

(** The column that the body of a bracket loop builds for the range
    from [start] to [stop] under a label. *)
Definition bracketColumn (label : string) (start stop : DateTime) : Column :=
  let todos := getTodosByDate fromISO TodoMatcher settings planningSettings todos
                 (Some start) (Some stop) false in
  todoColumn "📅" label todos (hideEmpty planningSettings)
    (Some (MoveToDate start)) (Some (getWipStyle planningSettings todos)).

(** A column that a bracket loop built: a label on a range that starts
    before it ends. *)
Definition isBracket (c : Column) : Prop :=
  exists label start stop, c = bracketColumn label start stop /\ start < stop.

(** The daily column of the day [k] days after today. *)
Definition dailyColumnOfDay (k : Z) : Column :=
  let dayStart := plusDays (today now) k in
  bracketColumn (if k =? 1 then "Tomorrow"%string else toFormat_cccc_ddMM dayStart)
    dayStart (plusDays dayStart 1).

(** What a column shows of a todo after its drop command is applied to
    it: the due date, and the status when the command sets one, that a
    todo must carry to be the todo that the command leaves. *)
Definition carriesDrop (target : DropTarget) (todo : TodoItem) : Prop :=
  match target with
  | MoveToDate date =>
      findTodoDate fromISO todo (dueDateAttribute settings) = Some date
  | MoveToDateAndStatus date st =>
      findTodoDate fromISO todo (dueDateAttribute settings) = Some date
      /\ status todo = st
  | RemoveDate =>
      is_Some (attributes todo)
      /\ findTodoDate fromISO todo (dueDateAttribute settings) = None
  end.

End ColumnViews.

(** ** Sample inputs *)

Module Sample.

Definition settings : ProletarianWizardSettings :=
  mkSettings "due" "completed" "selected" "started" (Some 1) true true.

Definition weekdaysOnly : ProletarianWizardSettings :=
  mkSettings "due" "completed" "selected" "started" (Some 1) false true.

Definition planning : PlanningSettings :=
  mkPlanning (mkSearch "" false) false (mkWipLimit true 3).

Definition unlimited : PlanningSettings :=
  mkPlanning (mkSearch "" false) false (mkWipLimit false 3).

(** The matcher of an empty search phrase. *)
Definition matchAll (phrase : string) (fuzzy : bool) (todo : TodoItem) : bool := true.

Definition allSucceed (r : Request) : bool := true.

(** Sunday 2024-06-09 and Monday 2024-06-10, at nine in the morning. *)
Definition sunday : DateTime := ymd 2024 6 9 + 9 * 3600000.
Definition monday : DateTime := ymd 2024 6 10 + 9 * 3600000.

Definition dueMonday : TodoItem :=
  mkTodo "notes.md:1" Todo (Some {[ "due"%string := AttrString "2024-06-10" ]}).

Definition dueSaturday : TodoItem :=
  mkTodo "notes.md:2" Todo (Some {[ "due"%string := AttrString "2024-06-15" ]}).

Definition dueSeptember : TodoItem :=
  mkTodo "notes.md:3" InProgress (Some {[ "due"%string := AttrString "2024-09-20" ]}).

(** Open, selected, without a due date. *)
Definition pinned : TodoItem :=
  mkTodo "notes.md:4" AttentionRequired (Some {[ "selected"%string := AttrBool true ]}).

(** Done and selected, completed on 2024-06-01, due on 2024-06-10. *)
Definition doneEarly : TodoItem :=
  mkTodo "notes.md:5" Complete
    (Some (<[ "due"%string := AttrString "2024-06-10" ]>
           (<[ "completed"%string := AttrString "2024-06-01" ]>
            {[ "selected"%string := AttrBool true ]}))).

(** Without an attribute mapping. *)
Definition bare : TodoItem := mkTodo "notes.md:6" Todo None.

Definition snapshot : list TodoItem :=
  [dueMonday; dueSaturday; dueSeptember; pinned; doneEarly; bare].

(** Open, not selected, with an attribute mapping and no due date. *)
Definition undated : TodoItem := mkTodo "notes.md:7" Delegated (Some ∅).

(** Wednesday 2024-06-12 and Friday 2024-06-14, at nine in the morning. *)
Definition wednesday : DateTime := ymd 2024 6 12 + 9 * 3600000.
Definition friday : DateTime := ymd 2024 6 14 + 9 * 3600000.

(** Three todos of a plan: due on Monday 2024-06-10, due on Tuesday
    2024-06-11 and in progress, selected without due date. *)
Definition item1 : TodoItem :=
  mkTodo "plan.md:1" Todo (Some {[ "due"%string := AttrString "2024-06-10" ]}).
Definition item2 : TodoItem :=
  mkTodo "plan.md:2" InProgress (Some {[ "due"%string := AttrString "2024-06-11" ]}).
Definition item3 : TodoItem :=
  mkTodo "plan.md:3" AttentionRequired (Some {[ "selected"%string := AttrBool true ]}).

End Sample.

(** * Properties *)

(** ** The calendar *)

Lemma checkFrom_sound (P : Z -> bool) (n : nat) (z0 : Z) :
  checkFrom P n z0 = true ->
  forall z, z0 <= z < z0 + Z.of_nat n -> P z = true.
Proof.
  revert z0. induction n as [|n IH]; intros z0 Hc z Hz; [lia|].
  simpl in Hc. apply andb_true_iff in Hc as [Hz0 Hrest].
  destruct (Z.eq_dec z z0) as [->|Hne]; [exact Hz0|].
  apply (IH (z0 + 1) Hrest). lia.
Qed.

Lemma eraDayOk_all (r : Z) : 0 <= r < 146097 -> eraDayOk r = true.
Proof.
  intros Hr.
  apply (checkFrom_sound eraDayOk (Z.to_nat 146097) 0); [vm_cast_no_check (eq_refl true) | lia].
Qed.

Lemma eraMonthOk_all (j : Z) : 0 <= j < 4800 -> eraMonthOk j = true.
Proof.
  intros Hj.
  apply (checkFrom_sound eraMonthOk (Z.to_nat 4800) 0); [vm_cast_no_check (eq_refl true) | lia].
Qed.

Lemma isLeapYear_period (y q : Z) : isLeapYear (y + q * 400) = isLeapYear y.
Proof.
  unfold isLeapYear.
  replace (y + q * 400) with (y + (q * 100) * 4) at 1 by lia.
  replace (y + q * 400) with (y + (q * 4) * 100) at 1 by lia.
  now rewrite !Z_mod_plus_full.
Qed.

Lemma daysInMonth_period (y q m : Z) : daysInMonth (y + q * 400) m = daysInMonth y m.
Proof. unfold daysInMonth. now rewrite isLeapYear_period. Qed.

Lemma daysFromCivil_period (y q m d : Z) :
  daysFromCivil (y + q * 400) m d = daysFromCivil y m d + q * 146097.
Proof.
  unfold daysFromCivil.
  destruct (m <=? 2).
  - replace (y + q * 400 - 1) with (y - 1 + q * 400) by lia.
    rewrite Z_div_plus_full, Z_mod_plus_full by lia. lia.
  - rewrite Z_div_plus_full, Z_mod_plus_full by lia. lia.
Qed.

Lemma daysFromCivil_day (y m d : Z) :
  daysFromCivil y m d = daysFromCivil y m 1 + d - 1.
Proof. unfold daysFromCivil. lia. Qed.

(** The civil date of a day is well formed, and is the date of that day. *)
Lemma civilFromDays_spec (z y m d : Z) :
  civilFromDays z = (y, m, d) ->
  1 <= m <= 12 /\ 1 <= d <= daysInMonth y m /\ daysFromCivil y m d = z.
Proof.
  unfold civilFromDays. intros Hc.
  set (z0 := z + 719468) in *.
  assert (Hr : 0 <= z0 mod 146097 < 146097) by (apply Z.mod_pos_bound; lia).
  pose proof (eraDayOk_all _ Hr) as Hok. unfold eraDayOk in Hok.
  destruct (civilOfEraDay (z0 mod 146097)) as [[y' m'] d'].
  simpl in Hc. injection Hc as <- <- <-.
  rewrite !andb_true_iff in Hok.
  destruct Hok as [[[[[[H1 H2] H3] H4] H5] H6] H7].
  replace (z0 / 146097 * 400) with ((z0 / 146097) * 400) by lia.
  rewrite daysInMonth_period, daysFromCivil_period.
  pose proof (Z.div_mod z0 146097 ltac:(lia)) as Hdm.
  subst z0. lia.
Qed.

Lemma month_index_div (r m : Z) : 1 <= m <= 12 -> (r * 12 + (m - 1)) / 12 = r.
Proof. intros Hm. symmetry. apply Z.div_unique with (r := m - 1); lia. Qed.

Lemma month_index_mod (r m : Z) : 1 <= m <= 12 -> (r * 12 + (m - 1)) mod 12 = m - 1.
Proof. intros Hm. symmetry. apply Z.mod_unique with (q := r); lia. Qed.

(** The first day of a month is the first day of that month. *)
Lemma civilFromDays_first (y m : Z) :
  1 <= m <= 12 -> civilFromDays (daysFromCivil y m 1) = (y, m, 1).
Proof.
  intros Hm.
  pose proof (Z.div_mod y 400 ltac:(lia)) as Hy.
  pose proof (Z.mod_pos_bound y 400 ltac:(lia)) as Hb.
  set (q := y / 400) in *. set (r := y mod 400) in *.
  assert (Hj : 0 <= r * 12 + (m - 1) < 4800) by lia.
  pose proof (eraMonthOk_all _ Hj) as Hok. unfold eraMonthOk in Hok.
  rewrite (month_index_div r m Hm), (month_index_mod r m Hm) in Hok.
  replace (m - 1 + 1) with m in Hok by lia.
  replace y with (r + q * 400) by lia.
  rewrite daysFromCivil_period. unfold civilFromDays.
  replace (daysFromCivil r m 1 + q * 146097 + 719468)
    with (daysFromCivil r m 1 + 719468 + q * 146097) by lia.
  rewrite Z_div_plus_full, Z_mod_plus_full by lia.
  destruct (civilOfEraDay ((daysFromCivil r m 1 + 719468) mod 146097)) as [[y' m'] d'].
  rewrite !andb_true_iff in Hok. destruct Hok as [[[H1 H2] H3] _].
  simpl. f_equal; [f_equal|]; lia.
Qed.

(** A month ends where the next one starts. *)
Lemma daysFromCivil_next_month (y m : Z) :
  1 <= m <= 12 ->
  let k := y * 12 + (m - 1) + 1 in
  daysFromCivil (k / 12) (k mod 12 + 1) 1 = daysFromCivil y m 1 + daysInMonth y m.
Proof.
  intros Hm k.
  pose proof (Z.div_mod y 400 ltac:(lia)) as Hy.
  pose proof (Z.mod_pos_bound y 400 ltac:(lia)) as Hb.
  set (q := y / 400) in *. set (r := y mod 400) in *.
  assert (Hj : 0 <= r * 12 + (m - 1) < 4800) by lia.
  pose proof (eraMonthOk_all _ Hj) as Hok. unfold eraMonthOk in Hok.
  rewrite (month_index_div r m Hm), (month_index_mod r m Hm) in Hok.
  replace (m - 1 + 1) with m in Hok by lia.
  destruct (civilOfEraDay _) as [[y' m'] d'] in Hok.
  rewrite !andb_true_iff in Hok. destruct Hok as [_ H4].
  apply Z.eqb_eq in H4.
  set (k0 := r * 12 + (m - 1) + 1) in *.
  assert (Hk : k = k0 + (q * 400) * 12) by (unfold k, k0; lia).
  rewrite Hk, Z_div_plus_full, Z_mod_plus_full by lia.
  replace y with (r + q * 400) by lia.
  rewrite !daysFromCivil_period, daysInMonth_period. lia.
Qed.

Lemma daysInMonth_pos (y m : Z) : 28 <= daysInMonth y m.
Proof.
  unfold daysInMonth.
  destruct (m =? 2); [destruct (isLeapYear y); lia|].
  destruct ((m =? 4) || (m =? 6) || (m =? 9) || (m =? 11)); lia.
Qed.

Lemma instant_split (t : DateTime) : t = dayNumber t * MS_PER_DAY + timeOfDay t.
Proof.
  unfold dayNumber, timeOfDay, MS_PER_DAY.
  pose proof (Z.div_mod t 86400000 ltac:(lia)). lia.
Qed.

Lemma timeOfDay_bound (t : DateTime) : 0 <= timeOfDay t < MS_PER_DAY.
Proof. unfold timeOfDay, MS_PER_DAY. apply Z.mod_pos_bound. lia. Qed.

(** Adding a month moves an instant forward. *)
Lemma plusMonths_gt (t : DateTime) : t < plusMonths t 1.
Proof.
  unfold plusMonths.
  destruct (civilFromDays (dayNumber t)) as [[y m] d] eqn:Hc.
  apply civilFromDays_spec in Hc as (Hm & Hd & Hz).
  pose proof (daysFromCivil_next_month y m Hm) as Hn. cbv zeta in Hn.
  set (k := y * 12 + (m - 1) + 1) in *.
  pose proof (daysInMonth_pos (k / 12) (k mod 12 + 1)) as Hp.
  rewrite daysFromCivil_day, Hn.
  rewrite (daysFromCivil_day y m d) in Hz.
  rewrite (instant_split t) at 1.
  unfold MS_PER_DAY. nia.
Qed.

(** The month after the month of an instant starts after the instant. *)
Lemma next_month_gt (t : DateTime) : t < plusMonths (startOfMonth t) 1.
Proof.
  unfold startOfMonth.
  destruct (civilFromDays (dayNumber t)) as [[y m] d] eqn:Hc.
  apply civilFromDays_spec in Hc as (Hm & Hd & Hz).
  unfold plusMonths.
  assert (Hdn : dayNumber (daysFromCivil y m 1 * MS_PER_DAY) = daysFromCivil y m 1)
    by (unfold dayNumber, MS_PER_DAY; apply Z_div_mult; lia).
  assert (Htd : timeOfDay (daysFromCivil y m 1 * MS_PER_DAY) = 0)
    by (unfold timeOfDay, MS_PER_DAY; apply Z_mod_mult).
  rewrite Hdn, Htd, (civilFromDays_first y m Hm).
  pose proof (daysFromCivil_next_month y m Hm) as Hn. cbv zeta in Hn.
  set (k := y * 12 + (m - 1) + 1) in *.
  pose proof (daysInMonth_pos (k / 12) (k mod 12 + 1)) as Hp.
  rewrite Z.min_l by lia. rewrite Hn.
  rewrite (daysFromCivil_day y m d) in Hz.
  pose proof (timeOfDay_bound t) as Hb.
  rewrite (instant_split t) at 1.
  unfold MS_PER_DAY in *. nia.
Qed.

(** ** The loops and their ranges *)

Section Columns.

Variable fromISO : string -> option DateTime.
Variable TodoMatcher : string -> bool -> TodoItem -> bool.
Variable settings : ProletarianWizardSettings.
Variable planningSettings : PlanningSettings.
Variable todos : list TodoItem.
Variable now : DateTime.

Abbreviation filtered := (filteredTodos TodoMatcher planningSettings todos).
Abbreviation byDate := (getTodosByDate fromISO TodoMatcher settings planningSettings todos).
Abbreviation dueDate todo := (findTodoDate fromISO todo (dueDateAttribute settings)).

Abbreviation queryOf := (rangeTodos fromISO TodoMatcher settings planningSettings todos).

Lemma dailyBrackets_todos (n : nat) (i : Z) (dayStart : DateTime) :
  map colTodos (dailyBrackets fromISO TodoMatcher settings planningSettings todos
                  n i dayStart)
  = map queryOf (dailyRanges settings n dayStart).
Proof.
  revert i dayStart. induction n as [|n IH]; intros i dayStart; [reflexivity|].
  simpl. unfold skipsDay.
  destruct (negb (showWeekEnds settings) && _); [apply IH|].
  simpl. f_equal. apply IH.
Qed.

Lemma weeklyBrackets_todos (n : nat) (i : Z) (weekStart : DateTime) :
  map colTodos (weeklyBrackets fromISO TodoMatcher settings planningSettings todos
                  n i weekStart)
  = map queryOf (weeklyRanges n weekStart).
Proof.
  revert i weekStart. induction n as [|n IH]; intros i weekStart; [reflexivity|].
  simpl. f_equal. apply IH.
Qed.

Lemma monthlyBrackets_todos (n : nat) (i : Z) (monthStart : DateTime) :
  map colTodos (fst (monthlyBrackets fromISO TodoMatcher settings planningSettings
                       todos n i monthStart))
  = map queryOf (fst (monthlyRanges n monthStart))
  /\ snd (monthlyBrackets fromISO TodoMatcher settings planningSettings
            todos n i monthStart) = snd (monthlyRanges n monthStart).
Proof.
  revert i monthStart. induction n as [|n IH]; intros i monthStart; [split; reflexivity|].
  simpl. destruct (IH (i + 1) (plusMonths monthStart 1)) as [IH1 IH2].
  destruct (monthlyBrackets _ _ _ _ _ n (i + 1) (plusMonths monthStart 1)) as [rest last].
  destruct (monthlyRanges n (plusMonths monthStart 1)) as [rs e].
  simpl in *. split; [f_equal; exact IH1 | exact IH2].
Qed.

Abbreviation futureCols :=
  (futureColumns fromISO TodoMatcher settings planningSettings todos now).

Lemma futureColumns_todos :
  map colTodos futureCols = map queryOf (futureRanges settings now).
Proof.
  unfold futureColumns, futureRanges, dailyColumns, weeklyColumns, laterColumn,
    monthlyColumns.
  rewrite !map_app.
  unfold dailyRangesOfNow, weeklyRangesOfNow, monthlyRangesOfNow, laterRange,
    firstMonthStart.
  rewrite dailyBrackets_todos, weeklyBrackets_todos.
  destruct (monthlyBrackets_todos 3 0 (plusMonths (startOfMonth (today now)) 1))
    as [-> ->].
  reflexivity.
Qed.

(** Membership in a query that ignores the selection. *)
Lemma byDate_unselected (from to : option DateTime) (todo : TodoItem) :
  todo ∈ byDate from to false
  <-> todo ∈ filtered /\ is_Some (attributes todo)
      /\ dateIsInRange from to (dueDate todo) = true.
Proof.
  unfold getTodosByDate. rewrite !list_elem_of_In, filter_In, <- !list_elem_of_In.
  unfold todoInRange. rewrite andb_true_iff, bool_decide_eq_true.
  rewrite andb_false_l, orb_false_r. tauto.
Qed.

Lemma dueDate_attributes (todo : TodoItem) (d : DateTime) :
  dueDate todo = Some d -> is_Some (attributes todo).
Proof.
  unfold findTodoDate. destruct (attributes todo); [eauto | discriminate].
Qed.

(** The number of columns that hold a dated todo is the number of their
    ranges that hold its due date. *)
Lemma bucketsOf_covering (todo : TodoItem) (d : DateTime)
    (cols : list Column) (rs : list Range) :
  map colTodos cols = map queryOf rs ->
  todo ∈ filtered ->
  dueDate todo = Some d ->
  length (bucketsOf todo cols) = covering d rs.
Proof.
  intros Hmap Hin Hd. revert rs Hmap.
  induction cols as [|c cols IH]; intros [|r rs] Hmap; try discriminate; [reflexivity|].
  simpl in Hmap. injection Hmap as Hc Hrest.
  unfold bucketsOf, covering in *. simpl.
  assert (Heq : bool_decide (todo ∈ colTodos c) = inRange d r).
  { rewrite Hc. unfold inRange.
    destruct (dateIsInRange (fst r) (snd r) (Some d)) eqn:Hr.
    - apply bool_decide_eq_true. unfold rangeTodos. apply byDate_unselected.
      rewrite Hd. eauto using dueDate_attributes.
    - apply bool_decide_eq_false. unfold rangeTodos.
      rewrite byDate_unselected, Hd, Hr.
      intros (_ & _ & ?). discriminate. }
  rewrite Heq. destruct (inRange d r); simpl; rewrite (IH rs Hrest); reflexivity.
Qed.

End Columns.

(** ** Disjointness and cover of the ranges *)

Lemma covering_app (d : DateTime) (rs rs' : list Range) :
  covering d (rs ++ rs') = (covering d rs + covering d rs')%nat.
Proof. unfold covering. now rewrite List.filter_app, length_app. Qed.

Lemma covering_cons (d : DateTime) (r : Range) (rs : list Range) :
  covering d (r :: rs) = ((if inRange d r then 1 else 0) + covering d rs)%nat.
Proof. unfold covering. simpl. now destruct (inRange d r). Qed.

Lemma inRange_bounded (d a b : DateTime) :
  inRange d (Some a, Some b) = (a <=? d) && (d <? b).
Proof. reflexivity. Qed.

Section RangeFacts.

Variable settings : ProletarianWizardSettings.
Variable now : DateTime.

Lemma plusDays_gt (t : DateTime) : t < plusDays t 1.
Proof. unfold plusDays, MS_PER_DAY. lia. Qed.

Lemma plusWeeks_gt (t : DateTime) : t < plusWeeks t 1.
Proof. unfold plusWeeks, plusDays, MS_PER_DAY. lia. Qed.

(** The daily ranges start at the cursor or later, and no two of them
    hold the same date. *)
Lemma dailyRanges_covering (n : nat) (dayStart d : DateTime) :
  (d < dayStart -> covering d (dailyRanges settings n dayStart) = 0%nat)
  /\ (covering d (dailyRanges settings n dayStart) <= 1)%nat.
Proof.
  revert dayStart. induction n as [|n IH]; intros dayStart; [split; auto|].
  simpl. pose proof (plusDays_gt dayStart) as Hgt.
  destruct (IH (plusDays dayStart 1)) as [IH0 IH1].
  destruct (skipsDay settings dayStart).
  - split; [intros; apply IH0; lia | exact IH1].
  - rewrite covering_cons, inRange_bounded.
    destruct (Z.leb_spec dayStart d), (Z.ltb_spec d (plusDays dayStart 1)); simpl;
      split; try (intros; lia); try (rewrite IH0 by lia; lia); try exact IH1.
Qed.

Lemma weeklyRanges_covering (n : nat) (weekStart d : DateTime) :
  (d < weekStart -> covering d (weeklyRanges n weekStart) = 0%nat)
  /\ (covering d (weeklyRanges n weekStart) <= 1)%nat.
Proof.
  revert weekStart. induction n as [|n IH]; intros weekStart; [split; auto|].
  simpl. pose proof (plusWeeks_gt weekStart) as Hgt.
  destruct (IH (plusWeeks weekStart 1)) as [IH0 IH1].
  rewrite covering_cons, inRange_bounded.
  destruct (Z.leb_spec weekStart d), (Z.ltb_spec d (plusWeeks weekStart 1)); simpl;
    split; try (intros; lia); try (rewrite IH0 by lia; lia); try exact IH1.
Qed.

(** The monthly ranges and the range of Later split the dates from the
    first month start onward. *)
Lemma monthlyRanges_covering (n : nat) (monthStart d : DateTime) :
  covering d (fst (monthlyRanges n monthStart)
              ++ [(Some (snd (monthlyRanges n monthStart)), None)])
  = if monthStart <=? d then 1%nat else 0%nat.
Proof.
  revert monthStart. induction n as [|n IH]; intros monthStart.
  - simpl. rewrite covering_cons. unfold inRange, covering. simpl.
    rewrite andb_true_r. destruct (monthStart <=? d); reflexivity.
  - simpl. specialize (IH (plusMonths monthStart 1)).
    destruct (monthlyRanges n (plusMonths monthStart 1)) as [rs e].
    cbn [fst snd app] in IH |- *. rewrite covering_cons, inRange_bounded, IH.
    pose proof (plusMonths_gt monthStart) as Hgt.
    destruct (Z.leb_spec monthStart d), (Z.ltb_spec d (plusMonths monthStart 1)),
      (Z.leb_spec (plusMonths monthStart 1) d); simpl; lia.
Qed.

Lemma weekday_bound (t : DateTime) : 1 <= weekday t <= 7.
Proof.
  unfold weekday. pose proof (Z.mod_pos_bound (dayNumber t + 3) 7 ltac:(lia)). lia.
Qed.

(** Next week starts after today. *)
Lemma next_week_gt :
  1 <= firstWeekdayOrDefault settings ->
  today now < plusWeeks (startOfThisWeek settings now) 1.
Proof.
  intros Hfw. unfold startOfThisWeek, setWeekday, minusWeeks, plusWeeks, plusDays.
  pose proof (weekday_bound (today now)) as Hw.
  destruct (Z.ltb_spec (today now)
              (today now + (firstWeekdayOrDefault settings - weekday (today now))
                           * MS_PER_DAY));
    unfold MS_PER_DAY in *; lia.
Qed.

(** No range after Past holds a date before today. *)
Lemma futureRanges_after_today (d : DateTime) :
  1 <= firstWeekdayOrDefault settings ->
  d < today now -> covering d (futureRanges settings now) = 0%nat.
Proof.
  intros Hfw Hd. unfold futureRanges. rewrite !covering_app.
  unfold dailyRangesOfNow, weeklyRangesOfNow, monthlyRangesOfNow, laterRange.
  rewrite <- covering_app, monthlyRanges_covering.
  pose proof (plusDays_gt (today now)).
  pose proof (next_week_gt Hfw).
  pose proof (next_month_gt (today now)).
  rewrite (proj1 (dailyRanges_covering 6 _ d)) by lia.
  rewrite (proj1 (weeklyRanges_covering 4 _ d)) by lia.
  unfold firstMonthStart.
  destruct (Z.leb_spec (plusMonths (startOfMonth (today now)) 1) d); lia.
Qed.

End RangeFacts.

(** ** Date ranges *)

(** C6: the membership test of a date range is half-open and lower
    inclusive: a date is in the range iff it is not null, is at or after
    [from] (or [from] is null) and is strictly before [to] (or [to] is
    null); a null date is never in range; at [d = from] the lower bound
    holds (membership is that of the range unbounded below); at [d = to]
    the date is out of range. *)
Theorem dateIsInRange_half_open (from to date : option DateTime) :
  (dateIsInRange from to date = true <->
     exists d, date = Some d
       /\ (from = None \/ exists f, from = Some f /\ f <= d)
       /\ (to = None \/ exists t, to = Some t /\ d < t))
  /\ dateIsInRange from to None = false
  /\ (forall d, dateIsInRange (Some d) to (Some d) = dateIsInRange None to (Some d))
  /\ (forall d, dateIsInRange from (Some d) (Some d) = false).
Proof.
  repeat split.
  - destruct date as [d|]; [|discriminate]. simpl. intros H.
    apply andb_true_iff in H as [Hf Ht]. exists d. split; [reflexivity|]. split.
    + destruct from as [f|]; [right; exists f; split; [reflexivity | lia] | now left].
    + destruct to as [t|]; [right; exists t; split; [reflexivity | lia] | now left].
  - intros (d & -> & Hf & Ht). simpl. apply andb_true_iff. split.
    + destruct Hf as [-> | (f & -> & Hf)]; [reflexivity | lia].
    + destruct Ht as [-> | (t & -> & Ht)]; [reflexivity | lia].
  - intros d. simpl. now rewrite Z.leb_refl.
  - intros d. simpl. rewrite Z.ltb_irrefl. apply andb_false_r.
Qed.

Section Planning.

Variable fromISO : string -> option DateTime.
Variable TodoMatcher : string -> bool -> TodoItem -> bool.
Variable persist : Request -> bool.
Variable settings : ProletarianWizardSettings.
Variable planningSettings : PlanningSettings.
Variable todos : list TodoItem.
Variable now : DateTime.

Abbreviation filtered := (filteredTodos TodoMatcher planningSettings todos).
Abbreviation byDate := (getTodosByDate fromISO TodoMatcher settings planningSettings todos).
Abbreviation dateOf todo attribute := (findTodoDate fromISO todo attribute).
Abbreviation todayCols :=
  (getTodayColumns fromISO TodoMatcher settings planningSettings todos now).
Abbreviation byDateAndStatus :=
  (getTodosByDateAndStatus fromISO TodoMatcher settings planningSettings todos).

(** *** Queries *)

Lemma isSelected_attributes (todo : TodoItem) :
  isSelected settings todo = true -> is_Some (attributes todo).
Proof. unfold isSelected. destruct (attributes todo); [eauto | discriminate]. Qed.

Lemma byDate_elem (from to : option DateTime) (includeSelected : bool)
    (todo : TodoItem) :
  todo ∈ byDate from to includeSelected
  <-> todo ∈ filtered /\ is_Some (attributes todo)
      /\ todoInRange fromISO settings from to includeSelected todo = true.
Proof.
  unfold getTodosByDate. rewrite !list_elem_of_In, filter_In, <- !list_elem_of_In.
  rewrite andb_true_iff, bool_decide_eq_true. tauto.
Qed.

Lemma byDateAndStatus_elem (from to : DateTime) (statuses : list TodoStatus)
    (todo : TodoItem) :
  todo ∈ byDateAndStatus from to statuses
  <-> todo ∈ byDate (Some from) (Some to) true /\ status todo ∈ statuses.
Proof.
  unfold getTodosByDateAndStatus.
  rewrite !list_elem_of_In, filter_In, <- !list_elem_of_In.
  unfold contains. rewrite existsb_exists. split.
  - intros [H (x & Hx & Heq)]. apply bool_decide_eq_true in Heq. subst x.
    split; [exact H | now apply list_elem_of_In].
  - intros [H Hs]. split; [exact H|]. exists (status todo).
    split; [now apply list_elem_of_In | now apply bool_decide_eq_true].
Qed.

(** C5 (amended): with [includeSelected = true] a todo of the filtered
    snapshot qualifies for a range iff its due date is in range, or it
    is selected and either open, or done with a completed date in
    range; so a done, selected todo whose completed date is outside the
    range qualifies exactly when its due date is in range; and an open,
    selected todo without due date is in the Today column of its
    status: Todo for [Todo], In progress for the other open statuses. *)
Theorem selection_rule (from to : option DateTime) (todo : TodoItem) :
  (todo ∈ byDate from to true
   <-> todo ∈ filtered
       /\ (dateIsInRange from to (dateOf todo (dueDateAttribute settings)) = true
           \/ isSelected settings todo = true
              /\ (statusIsDone (status todo) = false
                  \/ statusIsDone (status todo) = true
                     /\ dateIsInRange from to
                          (dateOf todo (completedDateAttribute settings)) = true)))
  /\ (statusIsDone (status todo) = true ->
      isSelected settings todo = true ->
      dateIsInRange from to (dateOf todo (completedDateAttribute settings)) = false ->
      (todo ∈ byDate from to true
       <-> todo ∈ filtered
           /\ dateIsInRange from to (dateOf todo (dueDateAttribute settings)) = true))
  /\ (todo ∈ filtered ->
      statusIsDone (status todo) = false ->
      isSelected settings todo = true ->
      dateOf todo (dueDateAttribute settings) = None ->
      exists c, todayCols !! (if bool_decide (status todo = Todo) then 0%nat else 1%nat)
                = Some c
                /\ todo ∈ colTodos c).
Proof.
  assert (Hrule : todo ∈ byDate from to true
   <-> todo ∈ filtered
       /\ (dateIsInRange from to (dateOf todo (dueDateAttribute settings)) = true
           \/ isSelected settings todo = true
              /\ (statusIsDone (status todo) = false
                  \/ statusIsDone (status todo) = true
                     /\ dateIsInRange from to
                          (dateOf todo (completedDateAttribute settings)) = true))).
  { rewrite byDate_elem. unfold todoInRange.
    rewrite orb_true_iff, !andb_true_iff, orb_true_iff, andb_true_iff,
      negb_true_iff. cbn [andb].
    split.
    - intros (Hin & _ & H). split; [exact Hin|]. tauto.
    - intros (Hin & H). split; [exact Hin|]. split; [|tauto].
      destruct H as [H | [H _]]; [|now apply isSelected_attributes].
      unfold findTodoDate in H. destruct (attributes todo); [eauto | discriminate]. }
  split; [exact Hrule|]. split.
  - intros Hdone Hsel Hout. rewrite Hrule, Hdone, Hout. split.
    + intros [Hin [H | [_ [H | [_ H]]]]]; try discriminate. now split.
    + intros [Hin H]. split; [exact Hin | now left].
  - intros Hin Hopen Hsel Hdue.
    assert (Hq : forall a b, todo ∈ byDate a b true).
    { intros a b. apply byDate_elem. split; [exact Hin|].
      split; [now apply isSelected_attributes|].
      unfold todoInRange. rewrite Hsel, Hopen. cbn. apply orb_true_r. }
    unfold getTodayColumns.
    destruct (bool_decide (status todo = Todo)) eqn:Hst.
    + apply bool_decide_eq_true in Hst. eexists. split; [reflexivity|].
      cbn [colTodos todoColumn]. apply byDateAndStatus_elem.
      split; [apply Hq|]. rewrite Hst. apply list_elem_of_here.
    + apply bool_decide_eq_false in Hst. eexists. split; [reflexivity|].
      cbn [colTodos todoColumn]. apply byDateAndStatus_elem.
      split; [apply Hq|].
      unfold statusIsDone in Hopen.
      destruct (status todo); try discriminate; try contradiction;
        repeat constructor.
Qed.

(** *** The main sequence *)

Abbreviation futureCols :=
  (futureColumns fromISO TodoMatcher settings planningSettings todos now).
Abbreviation columns :=
  (getColumns fromISO TodoMatcher settings planningSettings todos now).
Abbreviation dailyCols :=
  (dailyColumns fromISO TodoMatcher settings planningSettings todos now).
Abbreviation weeklyCols :=
  (weeklyColumns fromISO TodoMatcher settings planningSettings todos now).
Abbreviation monthlyCols :=
  (fst (monthlyColumns fromISO TodoMatcher settings planningSettings todos now)).
Abbreviation laterCol :=
  (laterColumn fromISO TodoMatcher settings planningSettings todos now).
Abbreviation pastCol :=
  (pastColumn fromISO TodoMatcher settings planningSettings todos now).

Lemma getColumns_split :
  columns
  = backlogColumn fromISO TodoMatcher settings planningSettings todos
    :: pastCol :: futureCols.
Proof. reflexivity. Qed.

(** C3 (amended): every daily, weekly, monthly and Later bucket
    queries its todos with [includeSelected = false], the default of
    [getTodosByDate]: the todos of these buckets are those of the
    filtered snapshot with an attribute mapping and a due date in the
    range of the bucket, selected or not. Only the Today group, through
    [getTodosByDateAndStatus], queries with [includeSelected = true]. *)
Theorem future_buckets_ignore_selection :
  map colTodos futureCols
  = map (fun r => byDate (fst r) (snd r) false) (futureRanges settings now)
  /\ (forall from to todo,
        todo ∈ byDate from to false
        <-> todo ∈ filtered /\ is_Some (attributes todo)
            /\ dateIsInRange from to (dateOf todo (dueDateAttribute settings)) = true)
  /\ map colTodos todayCols
     = map (fun statuses =>
              List.filter (fun todo => contains statuses (status todo))
                (byDate (Some (today now)) (Some (plusDays (today now) 1)) true))
         [[Todo]; [AttentionRequired; Delegated; InProgress]; [Canceled; Complete]].
Proof.
  split; [apply futureColumns_todos|]. split; [|reflexivity].
  intros from to todo. apply byDate_unselected.
Qed.

Lemma pastColumn_elem (todo : TodoItem) (d : DateTime) :
  dateOf todo (dueDateAttribute settings) = Some d ->
  todo ∈ colTodos pastCol
  <-> todo ∈ filtered /\ d < today now /\ statusIsOpen (status todo) = true.
Proof.
  intros Hd. unfold pastColumn. cbn [colTodos todoColumn].
  rewrite list_elem_of_In, filter_In, <- list_elem_of_In, byDate_unselected, Hd.
  cbn [dateIsInRange andb]. rewrite Z.ltb_lt.
  pose proof (dueDate_attributes fromISO settings todo d Hd). tauto.
Qed.

(** C1 (amended): for a todo of the filtered snapshot with a parseable
    due date [d], whatever [now] and [showWeekEnds], and for a first
    weekday from 1 to 7: the todo is in Past exactly when [d] is before
    today and its status is open, and a todo due before today is in no
    daily, weekly, monthly or Later bucket; the daily buckets are
    pairwise disjoint, so are the weekly buckets, and so are the monthly
    and Later buckets (at most one bucket of each family holds the
    todo); the monthly and Later buckets cover every date from the
    first day of next month on, where exactly one of them holds the
    todo. *)
Theorem main_sequence_families (todo : TodoItem) (d : DateTime) :
  1 <= firstWeekdayOrDefault settings <= 7 ->
  todo ∈ filtered ->
  dateOf todo (dueDateAttribute settings) = Some d ->
  (todo ∈ colTodos pastCol <-> d < today now /\ statusIsOpen (status todo) = true)
  /\ (d < today now -> bucketsOf todo futureCols = [])
  /\ (length (bucketsOf todo dailyCols) <= 1)%nat
  /\ (length (bucketsOf todo weeklyCols) <= 1)%nat
  /\ (length (bucketsOf todo (monthlyCols ++ [laterCol])) <= 1)%nat
  /\ (firstMonthStart now <= d ->
      length (bucketsOf todo (monthlyCols ++ [laterCol])) = 1%nat).
Proof.
  intros Hfw Hin Hd.
  pose proof (futureColumns_todos fromISO TodoMatcher settings planningSettings
                todos now) as Hall.
  unfold futureColumns, futureRanges in Hall.
  assert (Hdaily : map colTodos dailyCols
                   = map (rangeTodos fromISO TodoMatcher settings planningSettings todos)
                       (dailyRangesOfNow settings now))
    by apply dailyBrackets_todos.
  assert (Hweekly : map colTodos weeklyCols
                    = map (rangeTodos fromISO TodoMatcher settings planningSettings todos)
                        (weeklyRangesOfNow settings now))
    by apply weeklyBrackets_todos.
  assert (Hmonthly : map colTodos (monthlyCols ++ [laterCol])
                     = map (rangeTodos fromISO TodoMatcher settings planningSettings todos)
                         (monthlyRangesOfNow now ++ [laterRange now])).
  { unfold monthlyColumns, laterColumn, monthlyRangesOfNow, laterRange, firstMonthStart,
      monthlyColumns.
    rewrite !map_app.
    destruct (monthlyBrackets_todos fromISO TodoMatcher settings planningSettings todos
                3 0 (plusMonths (startOfMonth (today now)) 1)) as [-> ->].
    reflexivity. }
  split; [|split; [|split; [|split; [|split]]]].
  - rewrite (pastColumn_elem todo d Hd). tauto.
  - intros Hpast.
    apply length_zero_iff_nil.
    rewrite (bucketsOf_covering fromISO TodoMatcher settings planningSettings todos
               todo d _ _ (futureColumns_todos _ _ _ _ _ _) Hin Hd).
    apply futureRanges_after_today; lia.
  - rewrite (bucketsOf_covering _ _ _ _ _ todo d _ _ Hdaily Hin Hd).
    apply dailyRanges_covering.
  - rewrite (bucketsOf_covering _ _ _ _ _ todo d _ _ Hweekly Hin Hd).
    apply weeklyRanges_covering.
  - rewrite (bucketsOf_covering _ _ _ _ _ todo d _ _ Hmonthly Hin Hd).
    unfold monthlyRangesOfNow, laterRange. rewrite monthlyRanges_covering.
    destruct (firstMonthStart now <=? d); lia.
  - intros Hge.
    rewrite (bucketsOf_covering _ _ _ _ _ todo d _ _ Hmonthly Hin Hd).
    unfold monthlyRangesOfNow, laterRange. rewrite monthlyRanges_covering.
    destruct (Z.leb_spec (firstMonthStart now) d); [reflexivity | lia].
Qed.

(** *** The daily brackets *)

Lemma plusDays_plusDays (t : DateTime) (a b : Z) :
  plusDays (plusDays t a) b = plusDays t (a + b).
Proof. unfold plusDays. lia. Qed.

Lemma weekday_plusDays (t : DateTime) (k : Z) :
  weekday (plusDays t k) = (weekday t - 1 + k) mod 7 + 1.
Proof.
  unfold weekday, plusDays, dayNumber, MS_PER_DAY.
  rewrite Z_div_plus_full by lia.
  replace ((t / 86400000 + 3) mod 7 + 1 - 1 + k) with ((t / 86400000 + 3) mod 7 + k) by lia.
  rewrite Zplus_mod_idemp_l. f_equal. f_equal. lia.
Qed.

(** The days of the window that the daily loop does not skip. *)
Lemma dailyRanges_window :
  dailyRangesOfNow settings now
  = map (fun k => (Some (plusDays (today now) k), Some (plusDays (today now) (k + 1))))
      (List.filter (fun k => negb (skipsDay settings (plusDays (today now) k)))
         [1; 2; 3; 4; 5; 6]).
Proof.
  unfold dailyRangesOfNow. cbn [dailyRanges List.filter].
  rewrite !plusDays_plusDays.
  change (1 + 1) with 2. change (2 + 1) with 3. change (3 + 1) with 4.
  change (4 + 1) with 5. change (5 + 1) with 6. change (6 + 1) with 7.
  repeat match goal with
         | |- context [skipsDay settings ?t] => destruct (skipsDay settings t)
         end; reflexivity.
Qed.

Lemma dailyColumns_length :
  length dailyCols
  = length (List.filter (fun k => negb (skipsDay settings (plusDays (today now) k)))
              [1; 2; 3; 4; 5; 6]).
Proof.
  rewrite <- (length_map colTodos). unfold dailyColumns.
  rewrite dailyBrackets_todos, length_map.
  change (dailyRanges settings 6 (plusDays (today now) 1))
    with (dailyRangesOfNow settings now).
  now rewrite dailyRanges_window, length_map.
Qed.

(** C2 (amended): the daily loop runs six iterations, over the six
    days that follow today; with [showWeekEnds = false] a day whose
    local weekday index is 6 or more is skipped, no bucket being
    emitted, and the skipped day still counts toward the six
    iterations. The number of daily buckets is the number of days of
    the window that are not skipped: 6 when weekends are shown, 4 or 5
    when they are hidden and the first weekday is from 1 to 7. When
    tomorrow is not skipped, its bucket comes first and is labeled
    "Tomorrow". *)
Theorem daily_brackets_window :
  length dailyCols
  = length (List.filter (fun k => negb (skipsDay settings (plusDays (today now) k)))
              [1; 2; 3; 4; 5; 6])
  /\ (showWeekEnds settings = true -> length dailyCols = 6%nat)
  /\ (showWeekEnds settings = false ->
      1 <= firstWeekdayOrDefault settings <= 7 ->
      length dailyCols = 4%nat \/ length dailyCols = 5%nat)
  /\ (skipsDay settings (plusDays (today now) 1) = false ->
      exists c rest,
        dailyCols = c :: rest /\ title c = "Tomorrow"%string
        /\ colTodos c = byDate (Some (plusDays (today now) 1))
                          (Some (plusDays (today now) 2)) false).
Proof.
  split; [apply dailyColumns_length|]. split; [|split].
  - intros Hshow. rewrite dailyColumns_length. unfold skipsDay. rewrite Hshow.
    reflexivity.
  - intros Hhide Hfw. rewrite dailyColumns_length. cbn [List.filter].
    unfold skipsDay. rewrite Hhide. cbn [negb andb].
    rewrite !weekday_plusDays.
    pose proof (weekday_bound (today now)) as Hw.
    generalize dependent (weekday (today now)). intros w Hw.
    generalize dependent (firstWeekdayOrDefault settings). intros fw Hfw.
    assert (Hwc : w = 1 \/ w = 2 \/ w = 3 \/ w = 4 \/ w = 5 \/ w = 6 \/ w = 7) by lia.
    assert (Hfc : fw = 1 \/ fw = 2 \/ fw = 3 \/ fw = 4 \/ fw = 5 \/ fw = 6 \/ fw = 7)
      by lia.
    clear Hw Hfw.
    repeat (destruct Hwc as [-> | Hwc]); try subst w;
      repeat (destruct Hfc as [-> | Hfc]); try subst fw;
      vm_compute; auto.
  - intros Hkeep. unfold dailyColumns. cbn [dailyBrackets].
    unfold skipsDay in Hkeep. rewrite Hkeep. eexists. eexists.
    split; [reflexivity|]. split; [reflexivity|].
    cbn [colTodos todoColumn]. now rewrite plusDays_plusDays.
Qed.

(** *** Todos without attribute mapping *)

Lemma future_column_query (c : Column) :
  c ∈ futureCols -> exists r, colTodos c = byDate (fst r) (snd r) false.
Proof.
  intros Hc.
  assert (Hm : colTodos c ∈ map colTodos futureCols) by (apply list_elem_of_fmap; eauto).
  rewrite futureColumns_todos in Hm.
  apply list_elem_of_fmap in Hm as (r & Hr & _). now exists r.
Qed.

(** C10: a todo whose attribute mapping is absent appears in no
    bucket: no date-range query returns it, whatever the range and
    [includeSelected], the Backlog query does not return it, and no
    column of the Today group or of the main sequence holds it. *)
Theorem absent_attributes_no_bucket (todo : TodoItem) :
  attributes todo = None ->
  (forall from to includeSelected, todo ∉ byDate from to includeSelected)
  /\ (todo ∉ getTodosWithNoDate fromISO TodoMatcher settings planningSettings todos)
  /\ (forall c, c ∈ todayCols ++ columns -> todo ∉ colTodos c).
Proof.
  intros Habs.
  assert (Hq : forall from to includeSelected, todo ∉ byDate from to includeSelected).
  { intros from to inc Hin. apply byDate_elem in Hin as (_ & [a Ha] & _). congruence. }
  assert (Hb : todo ∉ getTodosWithNoDate fromISO TodoMatcher settings planningSettings todos).
  { unfold getTodosWithNoDate. rewrite list_elem_of_In, filter_In.
    intros [_ H]. rewrite Habs, andb_false_r in H. discriminate. }
  split; [exact Hq|]. split; [exact Hb|].
  intros c Hc. apply elem_of_app in Hc as [Hc | Hc].
  - unfold getTodayColumns in Hc.
    repeat (apply elem_of_cons in Hc as [-> | Hc]);
      try (cbn [colTodos todoColumn]; rewrite byDateAndStatus_elem;
           intros [H _]; exact (Hq _ _ _ H)).
    now apply elem_of_nil in Hc.
  - rewrite getColumns_split in Hc.
    apply elem_of_cons in Hc as [-> | Hc]; [exact Hb|].
    apply elem_of_cons in Hc as [-> | Hc].
    + unfold pastColumn. cbn [colTodos todoColumn].
      rewrite list_elem_of_In, filter_In, <- list_elem_of_In.
      intros [H _]. exact (Hq _ _ _ H).
    + apply future_column_query in Hc as [r ->]. apply Hq.
Qed.

(** *** WIP styles *)

(** C9: [getWipStyle] returns the marker "wip-exceeded" iff the limit is
    on and the number of todos is strictly greater than the daily
    limit, and the empty string otherwise; with the limit off it never
    returns the marker. The style of the Today group is the distinct
    marker "pw-planning-column-content--wip-exceeded" iff the limit is
    on and the daily limit is exceeded by the number of todos of the
    range of today whose status is one of Todo, InProgress,
    AttentionRequired and Delegated. *)
Theorem wip_styles (l : list TodoItem) :
  let limit := wipLimit planningSettings in
  let openToday :=
    List.filter (fun todo => negb (statusIsDone (status todo)))
      (byDate (Some (today now)) (Some (plusDays (today now) 1)) true) in
  (getWipStyle planningSettings l = "wip-exceeded"%string
   <-> isLimited limit = true /\ dailyLimit limit < Z.of_nat (length l))
  /\ (getWipStyle planningSettings l <> "wip-exceeded"%string ->
      getWipStyle planningSettings l = ""%string)
  /\ (isLimited limit = false -> getWipStyle planningSettings l = ""%string)
  /\ (getTodayWipStyle fromISO TodoMatcher settings planningSettings todos now
      = Some "pw-planning-column-content--wip-exceeded"%string
      <-> isLimited limit = true /\ dailyLimit limit < Z.of_nat (length openToday))
  /\ "pw-planning-column-content--wip-exceeded"%string <> "wip-exceeded"%string.
Proof.
  intros limit openToday.
  assert (Hopen : byDateAndStatus (today now) (plusDays (today now) 1)
                    [AttentionRequired; Delegated; InProgress; Todo] = openToday).
  { unfold getTodosByDateAndStatus, openToday. apply filter_ext.
    intros todo. now destruct (status todo). }
  unfold getWipStyle, getTodayWipStyle. fold (today now). rewrite Hopen. fold limit.
  destruct (isLimited limit); cbn [negb].
  - destruct (Z.ltb_spec (dailyLimit limit) (Z.of_nat (length l)));
      destruct (Z.ltb_spec (dailyLimit limit) (Z.of_nat (length openToday)));
      repeat split; intros; try discriminate; try congruence; try lia; intuition lia.
  - repeat split; intros; try discriminate; try congruence; intuition discriminate.
Qed.

(** *** Commands *)

Abbreviation moveAndSet :=
  (moveToDateAndStatus persist settings todos now).

(** C7: for a found todo, a move with a target status issues the
    update of the due date first; the update of the status only after
    the first is fulfilled; and, only after the second is fulfilled
    and only when start times are tracked, the started attribute of
    the todo is empty and the target status is InProgress, the update
    of the started attribute to the date of today. No request is
    issued while another one is in flight or after one has failed. *)
Theorem move_with_status_sequence (date : DateTime) (newStatus : TodoStatus)
    (id : string) (todo : TodoItem) :
  findTodo todos id = Some todo ->
  let todo' := setStatus todo newStatus in
  let r1 := UpdateAttribute todo' (dueDateAttribute settings) (toISODate date) in
  let r2 := UpdateTodoStatus todo' (completedDateAttribute settings) in
  let r3 := UpdateAttribute todo' (startedAttribute settings) (toISODate now) in
  let tr := moveAndSet date newStatus id in
  issued tr
  = r1 :: (if persist r1
           then r2 :: (if persist r2
                          && (trackStartTime settings && startedIsEmpty settings todo
                              && bool_decide (newStatus = InProgress))
                       then [r3] else [])
           else [])
  /\ sequential tr = true
  /\ warnings tr = [].
Proof.
  intros Hfound todo' r1 r2 r3 tr.
  assert (Heqb : forall r, Request_eqb r r = true).
  { intros [t a v | t a | t a]; cbn; rewrite ?String.eqb_refl, ?bool_decide_eq_true_2;
      reflexivity. }
  assert (Htr : tr = LogDebug (movingMessage id date)
                     :: fst (request persist r1
                             >>then (fun _ => request persist r2)
                             >>then (fun _ => trackStart persist settings now
                                                todo' newStatus)))
    by (unfold tr, moveToDateAndStatus; rewrite Hfound; reflexivity).
  assert (Hts : trackStart persist settings now todo' newStatus
                = if trackStartTime settings && startedIsEmpty settings todo
                     && bool_decide (newStatus = InProgress)
                  then request persist r3
                  else if trackStartTime settings
                          && match attributes todo with None => true | _ => false end
                       then ([Thrown "TypeError"], None)
                       else resolved tt).
  { unfold trackStart, startedIsEmpty, updateAttributeAsync. fold r3.
    change (attributes todo') with (attributes todo).
    destruct (trackStartTime settings); [|reflexivity].
    destruct (attributes todo) as [attrs|]; [|reflexivity].
    cbn [andb].
    now destruct (negb _ && bool_decide (newStatus = InProgress)). }
  rewrite Htr, Hts. clear Htr Hts tr. clearbody r1 r2 r3.
  unfold request, andThen, resolved, sequential.
  destruct (persist r1), (persist r2),
    (trackStartTime settings && startedIsEmpty settings todo
     && bool_decide (newStatus = InProgress)),
    (trackStartTime settings && match attributes todo with None => true | _ => false end),
    (persist r3);
    cbn; rewrite ?Heqb; auto.
Qed.

(** On an unknown identifier [removeDate] does nothing at all. *)
Lemma removeDate_unknown_id (id : string) :
  findTodo todos id = None -> removeDate persist settings todos id = [].
Proof. intros Hnone. unfold removeDate. now rewrite Hnone. Qed.

(** The move commands report an unknown identifier at warning level
    and request nothing. *)
Lemma move_unknown_id_warns (date : DateTime) (newStatus : TodoStatus) (id : string) :
  findTodo todos id = None ->
  warnings (moveToDate persist settings todos date id) = [notFoundMessage id]
  /\ issued (moveToDate persist settings todos date id) = []
  /\ warnings (moveAndSet date newStatus id) = [notFoundMessage id]
  /\ issued (moveAndSet date newStatus id) = [].
Proof.
  intros Hnone. unfold moveToDate, moveToDateAndStatus. rewrite Hnone.
  repeat split; reflexivity.
Qed.

End Planning.

(** C4: [removeDate] called with an identifier that is absent from the
    snapshot requests nothing and logs nothing, at no level: no warning
    reports the missing identifier, whereas [moveToDate] and
    [moveToDateAndStatus] log the warning on the same input. *)
Theorem removeDate_unknown_id_is_silent :
  findTodo Sample.snapshot "notes.md:99" = None
  /\ removeDate Sample.allSucceed Sample.settings Sample.snapshot "notes.md:99" = []
  /\ warnings (moveToDate Sample.allSucceed Sample.settings Sample.snapshot
                 Sample.monday "notes.md:99")
     = ["Todo notes.md:99 not found, couldn't move"%string]
  /\ warnings (moveToDateAndStatus Sample.allSucceed Sample.settings Sample.snapshot
                 Sample.monday Sample.monday InProgress "notes.md:99")
     = ["Todo notes.md:99 not found, couldn't move"%string].
Proof. repeat split; vm_compute; reflexivity. Qed.

(** ** The status toggle *)

(** C8: the status toggle asks for [Todo] when the current status is
    [Complete] or [Canceled], and for [Complete] when it is any other
    status; a click that was not prevented leaves the todo with that
    status, its identifier and attributes kept, and requests exactly one
    status update, of a todo that has that status. *)
Theorem toggle_status (persist : Request -> bool) (settings : ProletarianWizardSettings)
    (todo : TodoItem) :
  toggledStatus todo
  = match status todo with
    | Complete | Canceled => Todo
    | Todo | InProgress | AttentionRequired | Delegated => Complete
    end
  /\ snd (onclick persist settings false todo) = setStatus todo (toggledStatus todo)
  /\ issued (fst (onclick persist settings false todo))
     = [UpdateTodoStatus (setStatus todo (toggledStatus todo))
          (completedDateAttribute settings)]
  /\ status (snd (onclick persist settings false todo))
     = match status todo with
       | Complete | Canceled => Todo
       | Todo | InProgress | AttentionRequired | Delegated => Complete
       end
  /\ todoId (snd (onclick persist settings false todo)) = todoId todo
  /\ attributes (snd (onclick persist settings false todo)) = attributes todo
  /\ (exists changed,
        issued (fst (onclick persist settings false todo))
        = [UpdateTodoStatus changed (completedDateAttribute settings)]
        /\ status changed
           = match status todo with
       | Complete | Canceled => Todo
       | Todo | InProgress | AttentionRequired | Delegated => Complete
       end
        /\ todoId changed = todoId todo
        /\ attributes changed = attributes todo).
Proof.
  assert (Ht : toggledStatus todo
               = match status todo with
       | Complete | Canceled => Todo
       | Todo | InProgress | AttentionRequired | Delegated => Complete
       end)
    by (unfold toggledStatus; now destruct (status todo)).
  assert (Hi : issued (fst (onclick persist settings false todo))
               = [UpdateTodoStatus (setStatus todo (toggledStatus todo))
                    (completedDateAttribute settings)]).
  { unfold onclick, updateTodoStatus, request. cbn.
    now destruct (persist _). }
  split; [exact Ht|]. split; [reflexivity|]. split; [exact Hi|].
  split; [exact Ht|]. split; [reflexivity|]. split; [reflexivity|].
  exists (setStatus todo (toggledStatus todo)).
  split; [exact Hi|]. split; [exact Ht|]. split; reflexivity.
Qed.

(** ** The properties on the sample inputs *)

Module OnSample.

Import Sample.

Abbreviation sampleColumns st day :=
  (getColumns fromISODate matchAll st planning snapshot day).

(** C1, as stated, fails. On Sunday 2024-06-09, the week starting on
    Monday and weekends shown, the todo due on Monday 2024-06-10 is in
    two buckets of the main sequence, Tomorrow and Next week. On Monday
    2024-06-10, weekends hidden, the todo due on Saturday 2024-06-15 is
    in no bucket of the main sequence. *)
Lemma main_sequence_overlap_and_gap :
  map title (bucketsOf dueMonday (tail (sampleColumns settings sunday)))
  = ["Tomorrow"; "Next week"]%string
  /\ bucketsOf dueSaturday (tail (sampleColumns weekdaysOnly monday)) = [].
Proof. split; vm_compute; reflexivity. Qed.

Lemma main_sequence_families_witness :
  (1 <= firstWeekdayOrDefault settings <= 7
   /\ dueSeptember ∈ filteredTodos matchAll planning snapshot
   /\ findTodoDate fromISODate dueSeptember (dueDateAttribute settings)
      = Some (ymd 2024 9 20))
  /\ length (bucketsOf dueSeptember
               (fst (monthlyColumns fromISODate matchAll settings planning snapshot monday)
                ++ [laterColumn fromISODate matchAll settings planning snapshot monday]))
     = 1%nat.
Proof.
  assert (H1 : 1 <= firstWeekdayOrDefault settings <= 7) by (vm_compute; split; discriminate).
  assert (H2 : dueSeptember ∈ filteredTodos matchAll planning snapshot)
    by (apply list_elem_of_In; vm_compute; tauto).
  assert (H3 : findTodoDate fromISODate dueSeptember (dueDateAttribute settings)
               = Some (ymd 2024 9 20)) by (vm_compute; reflexivity).
  split; [auto|].
  apply (main_sequence_families fromISODate matchAll settings planning snapshot monday
           dueSeptember (ymd 2024 9 20) H1 H2 H3).
  vm_compute. discriminate.
Defined.

(** C2, as stated, fails: on Monday 2024-06-10, weekends hidden and the
    week starting on Monday, the daily loop emits four buckets, from
    Tuesday to Friday, and not six. *)
Lemma daily_brackets_fewer_than_six :
  map title (dailyColumns fromISODate matchAll weekdaysOnly planning snapshot monday)
  = ["Tomorrow"; "Wednesday 12/06"; "Thursday 13/06"; "Friday 14/06"]%string.
Proof. vm_compute. reflexivity. Qed.

Lemma daily_brackets_window_witness :
  (showWeekEnds weekdaysOnly = false /\ 1 <= firstWeekdayOrDefault weekdaysOnly <= 7)
  /\ (length (dailyColumns fromISODate matchAll weekdaysOnly planning snapshot monday)
      = 4%nat
      \/ length (dailyColumns fromISODate matchAll weekdaysOnly planning snapshot monday)
         = 5%nat).
Proof.
  assert (H1 : showWeekEnds weekdaysOnly = false) by reflexivity.
  assert (H2 : 1 <= firstWeekdayOrDefault weekdaysOnly <= 7)
    by (vm_compute; split; discriminate).
  split; [auto|].
  exact (proj1 (proj2 (proj2
           (daily_brackets_window fromISODate matchAll weekdaysOnly planning snapshot
              monday))) H1 H2).
Defined.

(** C3, as stated, fails: on Monday 2024-06-10 the query of the range
    of tomorrow with [includeSelected = true] returns the open,
    selected todo without due date, and the Tomorrow bucket does not
    hold it. *)
Lemma tomorrow_bucket_ignores_selection :
  getTodosByDate fromISODate matchAll settings planning [pinned]
    (Some (ymd 2024 6 11)) (Some (ymd 2024 6 12)) true = [pinned]
  /\ map (fun c => (title c, colTodos c))
       (take 1 (dailyColumns fromISODate matchAll settings planning [pinned] monday))
     = [("Tomorrow"%string, [])].
Proof. split; vm_compute; reflexivity. Qed.

(** C5, as stated, fails: on the range of Monday 2024-06-10, with
    [includeSelected = true], the done, selected todo completed on
    2024-06-01, outside the range, qualifies, through its due date. *)
Lemma done_selected_qualifies_by_due_date :
  statusIsDone (status doneEarly) = true
  /\ isSelected settings doneEarly = true
  /\ dateIsInRange (Some (ymd 2024 6 10)) (Some (ymd 2024 6 11))
       (findTodoDate fromISODate doneEarly (completedDateAttribute settings)) = false
  /\ getTodosByDate fromISODate matchAll settings planning [doneEarly]
       (Some (ymd 2024 6 10)) (Some (ymd 2024 6 11)) true = [doneEarly].
Proof. repeat split; vm_compute; reflexivity. Qed.

Lemma selection_rule_witness :
  (pinned ∈ filteredTodos matchAll planning snapshot
   /\ statusIsDone (status pinned) = false
   /\ isSelected settings pinned = true
   /\ findTodoDate fromISODate pinned (dueDateAttribute settings) = None)
  /\ exists c,
       getTodayColumns fromISODate matchAll settings planning snapshot monday !! 1%nat
       = Some c
       /\ pinned ∈ colTodos c.
Proof.
  assert (H1 : pinned ∈ filteredTodos matchAll planning snapshot)
    by (apply list_elem_of_In; vm_compute; tauto).
  assert (H2 : statusIsDone (status pinned) = false) by reflexivity.
  assert (H3 : isSelected settings pinned = true) by (vm_compute; reflexivity).
  assert (H4 : findTodoDate fromISODate pinned (dueDateAttribute settings) = None)
    by (vm_compute; reflexivity).
  split; [auto|].
  exact (proj2 (proj2
           (selection_rule fromISODate matchAll settings planning snapshot monday
              None None pinned)) H1 H2 H3 H4).
Defined.

Lemma move_with_status_sequence_witness :
  findTodo snapshot "notes.md:1" = Some dueMonday
  /\ issued (moveToDateAndStatus allSucceed settings snapshot monday
               (ymd 2024 6 12) InProgress "notes.md:1")
     = [UpdateAttribute (setStatus dueMonday InProgress) "due" "2024-06-12";
        UpdateTodoStatus (setStatus dueMonday InProgress) "completed";
        UpdateAttribute (setStatus dueMonday InProgress) "started" "2024-06-10"].
Proof.
  assert (H1 : findTodo snapshot "notes.md:1" = Some dueMonday) by reflexivity.
  split; [exact H1|].
  exact (proj1 (move_with_status_sequence allSucceed settings snapshot monday
                  (ymd 2024 6 12) InProgress "notes.md:1" dueMonday H1)).
Defined.

Lemma wip_styles_witness :
  isLimited (wipLimit unlimited) = false
  /\ getWipStyle unlimited snapshot = ""%string.
Proof.
  assert (H1 : isLimited (wipLimit unlimited) = false) by reflexivity.
  split; [exact H1|].
  exact (proj1 (proj2 (proj2
           (wip_styles fromISODate matchAll settings unlimited snapshot monday
              snapshot))) H1).
Defined.

Lemma absent_attributes_no_bucket_witness :
  attributes bare = None
  /\ forall c,
       c ∈ getTodayColumns fromISODate matchAll settings planning snapshot monday
           ++ sampleColumns settings monday ->
       bare ∉ colTodos c.
Proof.
  assert (H1 : attributes bare = None) by reflexivity.
  split; [exact H1|].
  exact (proj2 (proj2
           (absent_attributes_no_bucket fromISODate matchAll settings planning snapshot
              monday bare H1))).
Defined.

End OnSample.

(** ** The scenario of the planning board on Monday 2024-06-10 *)

Module Scenario.

Import Sample.

Example today_group :
  map (fun c => (title c, map todoId (colTodos c)))
    (getTodayColumns fromISODate matchAll settings planning [item1; item2; item3] monday)
  = [("Todo", ["plan.md:1"]); ("In progress", ["plan.md:3"]); ("Done", [])]%string.
Proof. vm_compute. reflexivity. Qed.

Example main_sequence :
  map (fun c => (title c, map todoId (colTodos c)))
    (getColumns fromISODate matchAll settings planning [item1; item2; item3] monday)
  = [("Backlog", []); ("Past", []); ("Tomorrow", ["plan.md:2"]);
     ("Wednesday 12/06", []); ("Thursday 13/06", []); ("Friday 14/06", []);
     ("Saturday 15/06", []); ("Sunday 16/06", []); ("Next week", []);
     ("Week +2 (24/06 - 30/06)", []); ("Week +3 (01/07 - 07/07)", []);
     ("Week +4 (08/07 - 14/07)", []); ("Next month", []);
     ("Month +2 (01/08 - 31/08)", []); ("Month +3 (01/09 - 30/09)", []);
     ("Later", [])]%string.
Proof. vm_compute. reflexivity. Qed.

Example drop_on_in_progress :
  moveToDateAndStatus allSucceed settings [item1; item2; item3] monday
    (startOfDay monday) InProgress "plan.md:1"
  = let todo := setStatus item1 InProgress in
    [LogDebug "Moving plan.md:1 to 2024-06-10T00:00:00.000+00:00";
     Issued (UpdateAttribute todo "due" "2024-06-10");
     Fulfilled (UpdateAttribute todo "due" "2024-06-10");
     Issued (UpdateTodoStatus todo "completed");
     Fulfilled (UpdateTodoStatus todo "completed");
     Issued (UpdateAttribute todo "started" "2024-06-10");
     Fulfilled (UpdateAttribute todo "started" "2024-06-10")].
Proof. vm_compute. reflexivity. Qed.

Example today_class_name :
  todayClassName fromISODate matchAll settings planning [item1; item2; item3] monday
  = "pw-planning-today undefined"%string.
Proof. vm_compute. reflexivity. Qed.

End Scenario.

(** * Further properties of the planning board *)

(** ** Queries *)

Lemma filter_sublist_of {A} (f : A -> bool) (l : list A) : List.filter f l `sublist_of` l.
Proof.
  induction l as [|x l IH]; [constructor|].
  simpl. destruct (f x); [now apply sublist_skip | now apply sublist_cons].
Qed.

Lemma filter_sublist_impl {A} (f g : A -> bool) (l : list A) :
  (forall x, f x = true -> g x = true) ->
  List.filter f l `sublist_of` List.filter g l.
Proof.
  intros Himp. induction l as [|x l IH]; [constructor|].
  simpl. destruct (f x) eqn:Hf.
  - rewrite (Himp x Hf). now apply sublist_skip.
  - destruct (g x); [now apply sublist_cons | exact IH].
Qed.

Section Board.

Variable fromISO : string -> option DateTime.
Variable TodoMatcher : string -> bool -> TodoItem -> bool.
Variable persist : Request -> bool.
Variable settings : ProletarianWizardSettings.
Variable planningSettings : PlanningSettings.
Variable todos : list TodoItem.
Variable now : DateTime.

Abbreviation shown := (filteredTodos TodoMatcher planningSettings todos).
Abbreviation query := (getTodosByDate fromISO TodoMatcher settings planningSettings todos).
Abbreviation dueOf todo := (findTodoDate fromISO todo (dueDateAttribute settings)).
Abbreviation completedOf todo :=
  (findTodoDate fromISO todo (completedDateAttribute settings)).
Abbreviation backlog :=
  (getTodosWithNoDate fromISO TodoMatcher settings planningSettings todos).
Abbreviation todayGroup :=
  (getTodayColumns fromISO TodoMatcher settings planningSettings todos now).
Abbreviation mainSequence :=
  (getColumns fromISO TodoMatcher settings planningSettings todos now).
Abbreviation afterPast :=
  (futureColumns fromISO TodoMatcher settings planningSettings todos now).
Abbreviation past :=
  (pastColumn fromISO TodoMatcher settings planningSettings todos now).
Abbreviation tomorrow := (plusDays (today now) 1).
Abbreviation todayQuery := (query (Some (today now)) (Some tomorrow) true).

Lemma query_sublist (from to : option DateTime) (includeSelected : bool) :
  query from to includeSelected `sublist_of` todos.
Proof.
  unfold getTodosByDate, filteredTodos.
  etransitivity; apply filter_sublist_of.
Qed.

Lemma column_is_query_or_backlog (c : Column) :
  c ∈ todayGroup ++ mainSequence ->
  colTodos c = backlog
  \/ exists from to includeSelected f,
       colTodos c = List.filter f (query from to includeSelected).
Proof.
  intros Hc. apply elem_of_app in Hc as [Hc | Hc].
  - right. unfold getTodayColumns in Hc.
    repeat (apply elem_of_cons in Hc as [-> | Hc]);
      try (cbn [colTodos todoColumn]; unfold getTodosByDateAndStatus;
           do 4 eexists; reflexivity).
    now apply elem_of_nil in Hc.
  - rewrite getColumns_split in Hc.
    apply elem_of_cons in Hc as [-> | Hc]; [now left|]. right.
    apply elem_of_cons in Hc as [-> | Hc].
    + unfold pastColumn. cbn [colTodos todoColumn]. do 4 eexists. reflexivity.
    + apply future_column_query in Hc as [r ->].
      exists (fst r), (snd r), false, (fun _ => true).
      symmetry. apply forallb_filter_id. now apply forallb_forall.
Qed.

(** X1: every column of the Today group and of the main sequence shows
    a subsequence of the snapshot: its todos are todos of the snapshot
    that pass the search filter, in the order of the snapshot, none
    being shown more often than the snapshot holds it. *)
Theorem columns_show_sublists (c : Column) :
  c ∈ todayGroup ++ mainSequence ->
  colTodos c `sublist_of` shown /\ colTodos c `sublist_of` todos.
Proof.
  intros Hc.
  assert (Hs : colTodos c `sublist_of` shown).
  { destruct (column_is_query_or_backlog c Hc) as [-> | (from & to & inc & f & ->)].
    - apply filter_sublist_of.
    - etransitivity; [apply filter_sublist_of|]. apply filter_sublist_of. }
  split; [exact Hs|]. etransitivity; [exact Hs|]. apply filter_sublist_of.
Qed.

(** X2: a query that includes the selected todos returns the todos of
    the same query without them, and possibly more, in the same order;
    and widening a range never loses a todo. *)
Theorem query_monotone (from to from' to' : option DateTime) (includeSelected : bool) :
  query from to false `sublist_of` query from to true
  /\ ((forall d, dateIsInRange from to (Some d) = true ->
                 dateIsInRange from' to' (Some d) = true) ->
      query from to includeSelected `sublist_of` query from' to' includeSelected).
Proof.
  split.
  - apply filter_sublist_impl. intros todo H.
    apply andb_true_iff in H as [Ha H]. apply andb_true_iff. split; [exact Ha|].
    unfold todoInRange in *. rewrite andb_false_l, orb_false_r in H.
    now rewrite H.
  - intros Hwide. apply filter_sublist_impl. intros todo H.
    apply andb_true_iff in H as [Ha H]. apply andb_true_iff. split; [exact Ha|].
    assert (Hd : forall date, dateIsInRange from to date = true ->
                              dateIsInRange from' to' date = true).
    { intros [d|] Hd; [now apply Hwide | discriminate]. }
    unfold todoInRange in *.
    apply orb_true_iff in H as [H | H]; [now rewrite (Hd _ H)|].
    apply orb_true_iff. right.
    apply andb_true_iff in H as [Hsel H]. rewrite Hsel. cbn [andb].
    apply orb_true_iff in H as [H | H]; [|now rewrite H, orb_true_r].
    apply andb_true_iff in H as [Hdone H]. now rewrite Hdone, (Hd _ H).
Qed.

Lemma backlog_elem (todo : TodoItem) :
  todo ∈ backlog
  <-> todo ∈ shown /\ is_Some (attributes todo) /\ dueOf todo = None
      /\ isSelected settings todo = false /\ statusIsDone (status todo) = false.
Proof.
  unfold getTodosWithNoDate. rewrite list_elem_of_In, filter_In, <- list_elem_of_In.
  unfold isSelected, statusIsOpen, statusIsDone.
  destruct (attributes todo) as [attrs|] eqn:Ha.
  - destruct (dueOf todo) as [d|] eqn:Hd.
    + rewrite bool_decide_eq_true_2 by eauto. cbn. split; [intros [_ H] | intros (_ & _ & H & _)];
        discriminate.
    + rewrite bool_decide_eq_false_2 by (intros [? ?]; discriminate). cbn [negb andb].
      rewrite andb_true_iff, negb_true_iff.
      destruct (status todo); cbn; intuition (eauto; discriminate).
  - rewrite andb_false_r. cbn. split; [intros [_ H]; discriminate|].
    intros (_ & [a Ha'] & _). discriminate.
Qed.

(** X3: Backlog shares no todo with any other column: a todo of Backlog
    is returned by no date-range query, whatever the range and
    [includeSelected], hence is in no column of the Today group and in no
    other column of the main sequence. *)
Theorem backlog_is_exclusive (todo : TodoItem) :
  todo ∈ backlog ->
  (forall from to includeSelected, todo ∉ query from to includeSelected)
  /\ (forall c, c ∈ todayGroup ++ tail mainSequence -> todo ∉ colTodos c).
Proof.
  intros Hb. apply backlog_elem in Hb as (Hin & Ha & Hdue & Hsel & Hopen).
  assert (Hq : forall from to includeSelected, todo ∉ query from to includeSelected).
  { intros from to inc Hq. apply byDate_elem in Hq as (_ & _ & Hq).
    unfold todoInRange in Hq. rewrite Hdue, Hsel in Hq. cbn in Hq.
    now rewrite andb_false_r in Hq. }
  split; [exact Hq|]. intros c Hc.
  assert (Hc' : c ∈ todayGroup ++ mainSequence).
  { apply elem_of_app in Hc as [Hc | Hc]; apply elem_of_app; [now left | right].
    rewrite getColumns_split in *. now apply elem_of_cons; right. }
  destruct (column_is_query_or_backlog c Hc') as [Hbk | (from & to & inc & f & ->)].
  - exfalso. apply elem_of_app in Hc as [Hc | Hc].
    + unfold getTodayColumns in Hc.
      repeat (apply elem_of_cons in Hc as [-> | Hc]);
        [| | | now apply elem_of_nil in Hc];
        cbn [colTodos todoColumn] in Hbk;
        (assert (Hx : todo ∈ backlog) by (apply backlog_elem; auto));
        rewrite <- Hbk in Hx; apply byDateAndStatus_elem in Hx as [Hx _];
        exact (Hq _ _ _ Hx).
    + rewrite getColumns_split in Hc. cbn [tail] in Hc.
      assert (Hx : todo ∈ backlog) by (apply backlog_elem; auto).
      rewrite <- Hbk in Hx.
      apply elem_of_cons in Hc as [-> | Hc].
      * unfold pastColumn in Hx. cbn [colTodos todoColumn] in Hx.
        rewrite list_elem_of_In, filter_In, <- list_elem_of_In in Hx.
        destruct Hx as [Hx _]. exact (Hq _ _ _ Hx).
      * apply future_column_query in Hc as [r Hr]. rewrite Hr in Hx.
        exact (Hq _ _ _ Hx).
  - rewrite list_elem_of_In, filter_In, <- list_elem_of_In. intros [Hx _].
    exact (Hq _ _ _ Hx).
Qed.

(** ** The Today group *)

Lemma today_column_elem (statuses : list TodoStatus) (todo : TodoItem) :
  bool_decide (todo ∈ getTodosByDateAndStatus fromISO TodoMatcher settings
                        planningSettings todos (today now) tomorrow statuses)
  = bool_decide (todo ∈ todayQuery) && contains statuses (status todo).
Proof.
  destruct (contains statuses (status todo)) eqn:Hc.
  - rewrite andb_true_r. apply bool_decide_ext. rewrite byDateAndStatus_elem.
    unfold contains in Hc. apply existsb_exists in Hc as (x & Hx & Heq).
    apply bool_decide_eq_true in Heq. subst x. apply list_elem_of_In in Hx. tauto.
  - rewrite andb_false_r. apply bool_decide_eq_false. rewrite byDateAndStatus_elem.
    intros [_ Hs]. apply list_elem_of_In in Hs.
    assert (contains statuses (status todo) = true); [|congruence].
    unfold contains. apply existsb_exists. exists (status todo).
    split; [exact Hs | now apply bool_decide_eq_true].
Qed.

(** X4: the three columns of the Today group split the todos of the
    query of today by status: a todo that the query of today with the
    selected todos returns is in exactly one of the columns Todo, In
    progress and Done, and any other todo is in none. *)
Theorem today_group_partition (todo : TodoItem) :
  length (bucketsOf todo todayGroup)
  = if bool_decide (todo ∈ todayQuery) then 1%nat else 0%nat.
Proof.
  unfold bucketsOf, getTodayColumns. cbn [List.filter colTodos todoColumn].
  rewrite !today_column_elem.
  destruct (bool_decide (todo ∈ todayQuery)); [|reflexivity].
  destruct (status todo); reflexivity.
Qed.

(** X5: a selected todo in an open status is pinned to the Today group
    whatever its due date is, even absent, unparsable or far away: when
    it passes the search filter it is in the column Todo if its status is
    Todo and in the column In progress otherwise, and it is never in
    Backlog. A selected todo in a done status is in the column Done
    exactly when its due date or its completed date is today. *)
Theorem selected_todo_today (todo : TodoItem) :
  todo ∈ shown ->
  isSelected settings todo = true ->
  (statusIsDone (status todo) = false ->
   (todo ∉ backlog)
   /\ exists c, todayGroup !! (if bool_decide (status todo = Todo) then 0%nat else 1%nat)
                = Some c
                /\ todo ∈ colTodos c)
  /\ (statusIsDone (status todo) = true ->
      exists c, todayGroup !! 2%nat = Some c
                /\ (todo ∈ colTodos c
                    <-> dateIsInRange (Some (today now)) (Some tomorrow) (dueOf todo) = true
                        \/ dateIsInRange (Some (today now)) (Some tomorrow)
                             (completedOf todo) = true)).
Proof.
  intros Hin Hsel.
  pose proof (isSelected_attributes settings todo Hsel) as Ha.
  split.
  - intros Hopen. split.
    + rewrite backlog_elem. intros (_ & _ & _ & H & _). congruence.
    + assert (Hq : todo ∈ todayQuery).
      { apply byDate_elem. split; [exact Hin|]. split; [exact Ha|].
        unfold todoInRange. rewrite Hsel, Hopen. cbn. apply orb_true_r. }
      unfold getTodayColumns.
      destruct (bool_decide (status todo = Todo)) eqn:Hst.
      * apply bool_decide_eq_true in Hst. eexists. split; [reflexivity|].
        cbn [colTodos todoColumn]. apply byDateAndStatus_elem.
        split; [exact Hq|]. rewrite Hst. apply list_elem_of_here.
      * apply bool_decide_eq_false in Hst. eexists. split; [reflexivity|].
        cbn [colTodos todoColumn]. apply byDateAndStatus_elem.
        split; [exact Hq|]. unfold statusIsDone in Hopen.
        destruct (status todo); try discriminate; try contradiction;
          repeat constructor.
  - intros Hdone. unfold getTodayColumns. eexists. split; [reflexivity|].
    cbn [colTodos todoColumn]. rewrite byDateAndStatus_elem, byDate_elem.
    unfold todoInRange. rewrite Hsel, Hdone. cbn [andb negb].
    rewrite orb_false_r, orb_true_iff. split.
    + intros [(_ & _ & H) _]. exact H.
    + intros H. split; [auto|]. unfold statusIsDone in Hdone.
      destruct (status todo); try discriminate; repeat constructor.
Qed.

(** ** Todos due today or overdue *)

Lemma today_is_midnight : today now = dayNumber now * MS_PER_DAY.
Proof. reflexivity. Qed.

Lemma next_week_from_tomorrow :
  1 <= firstWeekdayOrDefault settings ->
  tomorrow <= plusWeeks (startOfThisWeek settings now) 1.
Proof.
  intros Hfw. unfold startOfThisWeek, setWeekday, minusWeeks, plusWeeks, plusDays.
  pose proof (weekday_bound (today now)) as Hw.
  destruct (Z.ltb_spec (today now)
              (today now + (firstWeekdayOrDefault settings - weekday (today now))
                           * MS_PER_DAY));
    unfold MS_PER_DAY in *; lia.
Qed.

Lemma next_month_from_tomorrow : tomorrow <= firstMonthStart now.
Proof.
  pose proof (next_month_gt (today now + (MS_PER_DAY - 1))) as Hgt.
  assert (Hd1 : dayNumber (today now + (MS_PER_DAY - 1)) = dayNumber now).
  { rewrite today_is_midnight. unfold dayNumber at 1, MS_PER_DAY.
    symmetry. apply Z.div_unique with (r := 86400000 - 1); lia. }
  assert (Hd2 : dayNumber (today now) = dayNumber now).
  { rewrite today_is_midnight. unfold dayNumber at 1, MS_PER_DAY.
    apply Z_div_mult. lia. }
  assert (Hs : startOfMonth (today now + (MS_PER_DAY - 1)) = startOfMonth (today now))
    by (unfold startOfMonth; now rewrite Hd1, Hd2).
  rewrite Hs in Hgt. unfold firstMonthStart, plusDays. unfold MS_PER_DAY in *. lia.
Qed.

(** No range after Past holds a date before tomorrow. *)
Lemma futureRanges_from_tomorrow (d : DateTime) :
  1 <= firstWeekdayOrDefault settings ->
  d < tomorrow -> covering d (futureRanges settings now) = 0%nat.
Proof.
  intros Hfw Hd. unfold futureRanges. rewrite !covering_app.
  unfold dailyRangesOfNow, weeklyRangesOfNow, monthlyRangesOfNow, laterRange.
  rewrite <- covering_app, monthlyRanges_covering.
  pose proof (next_week_from_tomorrow Hfw).
  pose proof next_month_from_tomorrow.
  rewrite (proj1 (dailyRanges_covering settings 6 _ d)) by lia.
  rewrite (proj1 (weeklyRanges_covering 4 _ d)) by lia.
  destruct (Z.leb_spec (firstMonthStart now) d); lia.
Qed.

Lemma main_sequence_buckets (todo : TodoItem) (d : DateTime) :
  todo ∈ shown -> dueOf todo = Some d ->
  bucketsOf todo mainSequence
  = (if bool_decide (todo ∈ colTodos past) then [past] else [])
    ++ bucketsOf todo afterPast.
Proof.
  intros Hin Hd. rewrite getColumns_split. unfold bucketsOf. cbn [List.filter].
  rewrite (bool_decide_eq_false_2 (todo ∈ colTodos (backlogColumn _ _ _ _ _))).
  - now destruct (bool_decide (todo ∈ colTodos past)).
  - unfold backlogColumn. cbn [colTodos todoColumn]. rewrite backlog_elem.
    intros (_ & _ & H & _). congruence.
Qed.

(** X6: a todo that is due today is shown by the Today group only: when
    it passes the search filter and its due date is on the day of [now],
    it is in exactly one column of the Today group and in no column of
    the main sequence, for a first weekday of 1 or more. *)
Theorem due_today_only_in_today_group (todo : TodoItem) (d : DateTime) :
  1 <= firstWeekdayOrDefault settings ->
  todo ∈ shown ->
  dueOf todo = Some d ->
  today now <= d < tomorrow ->
  bucketsOf todo mainSequence = []
  /\ length (bucketsOf todo todayGroup) = 1%nat.
Proof.
  intros Hfw Hin Hd [Hlo Hhi]. split.
  - rewrite (main_sequence_buckets todo d Hin Hd).
    rewrite bool_decide_eq_false_2
      by (rewrite (pastColumn_elem fromISO TodoMatcher settings planningSettings todos
                     now todo d Hd); lia).
    cbn [app]. apply length_zero_iff_nil.
    rewrite (bucketsOf_covering fromISO TodoMatcher settings planningSettings todos
               todo d _ _ (futureColumns_todos _ _ _ _ _ _) Hin Hd).
    now apply futureRanges_from_tomorrow.
  - rewrite today_group_partition. rewrite bool_decide_eq_true_2; [reflexivity|].
    apply byDate_elem. split; [exact Hin|].
    split; [eauto using dueDate_attributes|].
    unfold todoInRange. rewrite Hd. cbn [dateIsInRange].
    apply orb_true_iff. left. apply andb_true_iff. split; lia.
Qed.

(** X7: an overdue todo that is done leaves the main sequence: a todo
    that passes the search filter, is due before today and has a done
    status is in no column of the main sequence, and it is in a column of
    the Today group exactly when it is selected and was completed today. *)
Theorem overdue_done_todo (todo : TodoItem) (d : DateTime) :
  1 <= firstWeekdayOrDefault settings ->
  todo ∈ shown ->
  dueOf todo = Some d ->
  d < today now ->
  statusIsDone (status todo) = true ->
  bucketsOf todo mainSequence = []
  /\ ((exists c, c ∈ todayGroup /\ todo ∈ colTodos c)
      <-> isSelected settings todo = true
          /\ dateIsInRange (Some (today now)) (Some tomorrow) (completedOf todo) = true).
Proof.
  intros Hfw Hin Hd Hlt Hdone. split.
  - rewrite (main_sequence_buckets todo d Hin Hd).
    rewrite bool_decide_eq_false_2.
    + cbn [app]. apply length_zero_iff_nil.
      rewrite (bucketsOf_covering fromISO TodoMatcher settings planningSettings todos
                 todo d _ _ (futureColumns_todos _ _ _ _ _ _) Hin Hd).
      apply futureRanges_from_tomorrow; [exact Hfw|].
      unfold plusDays, MS_PER_DAY. lia.
    + rewrite (pastColumn_elem fromISO TodoMatcher settings planningSettings todos
                 now todo d Hd).
      intros (_ & _ & Hopen). unfold statusIsOpen, statusIsDone in *.
      destruct (status todo); discriminate.
  - assert (Hq : todo ∈ todayQuery
                 <-> isSelected settings todo = true
                     /\ dateIsInRange (Some (today now)) (Some tomorrow)
                          (completedOf todo) = true).
    { rewrite byDate_elem. unfold todoInRange. rewrite Hd, Hdone. cbn [dateIsInRange negb].
      replace (today now <=? d) with false by (symmetry; apply Z.leb_gt; lia).
      cbn [andb orb]. rewrite orb_false_r, andb_true_iff. split.
      - intros (_ & _ & H). exact H.
      - intros H. split; [exact Hin|]. split; [eauto using dueDate_attributes | exact H]. }
    rewrite <- Hq. split.
    + intros (c & Hc & Ht). unfold getTodayColumns in Hc.
      repeat (apply elem_of_cons in Hc as [-> | Hc]);
        try (cbn [colTodos todoColumn] in Ht; now apply byDateAndStatus_elem in Ht).
      now apply elem_of_nil in Hc.
    + intros Ht. pose proof (today_group_partition todo) as Hp.
      rewrite bool_decide_eq_true_2 in Hp by exact Ht.
      unfold bucketsOf in Hp.
      destruct (List.filter _ todayGroup) as [|c l] eqn:Hf; [discriminate|].
      assert (Hc : In c (List.filter (fun c => bool_decide (todo ∈ colTodos c)) todayGroup))
        by (rewrite Hf; now left).
      apply filter_In in Hc as [Hc Hb]. exists c. split; [now apply list_elem_of_In|].
      now apply bool_decide_eq_true in Hb.
Qed.

(** ** The shape of the columns *)

Abbreviation bracket :=
  (bracketColumn fromISO TodoMatcher settings planningSettings todos).
Abbreviation later :=
  (laterColumn fromISO TodoMatcher settings planningSettings todos now).
Abbreviation dailyPart :=
  (dailyColumns fromISO TodoMatcher settings planningSettings todos now).
Abbreviation weeklyPart :=
  (weeklyColumns fromISO TodoMatcher settings planningSettings todos now).
Abbreviation monthlyPart :=
  (fst (monthlyColumns fromISO TodoMatcher settings planningSettings todos now)).

Abbreviation isBracket := (isBracket fromISO TodoMatcher settings planningSettings todos).

Lemma dailyBrackets_shape (n : nat) (i : Z) (dayStart : DateTime) :
  Forall isBracket (dailyBrackets fromISO TodoMatcher settings planningSettings todos
                      n i dayStart).
Proof.
  revert i dayStart. induction n as [|n IH]; intros i dayStart; [constructor|].
  cbn [dailyBrackets].
  destruct (negb (showWeekEnds settings) && _); [apply IH|].
  constructor; [|apply IH].
  eexists _, dayStart, (plusDays dayStart 1). split; [reflexivity | apply plusDays_gt].
Qed.

Lemma weeklyBrackets_shape (n : nat) (i : Z) (weekStart : DateTime) :
  Forall isBracket (weeklyBrackets fromISO TodoMatcher settings planningSettings todos
                      n i weekStart).
Proof.
  revert i weekStart. induction n as [|n IH]; intros i weekStart; [constructor|].
  cbn [weeklyBrackets]. constructor; [|apply IH].
  eexists _, weekStart, (plusWeeks weekStart 1).
  split; [reflexivity | apply plusWeeks_gt].
Qed.

Lemma monthlyBrackets_shape (n : nat) (i : Z) (monthStart : DateTime) :
  Forall isBracket (fst (monthlyBrackets fromISO TodoMatcher settings planningSettings
                           todos n i monthStart)).
Proof.
  revert i monthStart. induction n as [|n IH]; intros i monthStart; [constructor|].
  cbn [monthlyBrackets]. specialize (IH (i + 1) (plusMonths monthStart 1)).
  destruct (monthlyBrackets _ _ _ _ _ n (i + 1) (plusMonths monthStart 1)) as [rest last].
  cbn [fst] in *. constructor; [|exact IH].
  eexists _, monthStart, (plusMonths monthStart 1).
  split; [reflexivity | apply plusMonths_gt].
Qed.

Lemma afterPast_shape (c : Column) :
  c ∈ afterPast -> isBracket c \/ c = later.
Proof.
  unfold futureColumns. rewrite !elem_of_app, list_elem_of_singleton.
  intros [H | [H | [H | H]]]; [left | left | left | now right].
  - exact (proj1 (Forall_forall _ _) (dailyBrackets_shape 6 0 _) c H).
  - exact (proj1 (Forall_forall _ _) (weeklyBrackets_shape 4 0 _) c H).
  - exact (proj1 (Forall_forall _ _) (monthlyBrackets_shape 3 0 _) c H).
Qed.

Lemma afterPast_lengths :
  length weeklyPart = 4%nat /\ length monthlyPart = 3%nat.
Proof. split; reflexivity. Qed.

(** X8: the main sequence is Backlog, Past, the daily columns (at most
    six), the four weekly columns, the three monthly columns and Later,
    in this order.
    Backlog is never hidden when empty, Past always is, and every column
    after Past follows the setting [hideEmpty]; no column of the Today
    group is hidden when empty. Past is the one column without a drop
    command: Backlog removes the due date, and every column after Past
    moves the todo to a date without changing its status. *)
Theorem main_sequence_layout :
  (getColumns fromISO TodoMatcher settings planningSettings todos now
   = backlogColumn fromISO TodoMatcher settings planningSettings todos
     :: pastColumn fromISO TodoMatcher settings planningSettings todos now
     :: dailyColumns fromISO TodoMatcher settings planningSettings todos now
     ++ weeklyColumns fromISO TodoMatcher settings planningSettings todos now
     ++ fst (monthlyColumns fromISO TodoMatcher settings planningSettings todos now)
     ++ [laterColumn fromISO TodoMatcher settings planningSettings todos now]
   /\ (length (dailyColumns fromISO TodoMatcher settings planningSettings todos now)
       <= 6)%nat
   /\ length (weeklyColumns fromISO TodoMatcher settings planningSettings todos now)
      = 4%nat
   /\ length (fst (monthlyColumns fromISO TodoMatcher settings planningSettings
                     todos now))
      = 3%nat)
  /\ map (fun c => (title c, hideIfEmpty c, onTodoDropped c)) (take 2 mainSequence)
     = [("Backlog"%string, false, Some RemoveDate); ("Past"%string, true, None)]
  /\ (forall c, c ∈ afterPast ->
        hideIfEmpty c = hideEmpty planningSettings
        /\ exists date, onTodoDropped c = Some (MoveToDate date))
  /\ (forall c, c ∈ todayGroup ->
        hideIfEmpty c = false
        /\ exists st, onTodoDropped c = Some (MoveToDateAndStatus (today now) st)).
Proof.
  split; [|split; [reflexivity|split]].
  - split; [reflexivity|].
    split; [|exact afterPast_lengths].
    rewrite (dailyColumns_length fromISO TodoMatcher settings planningSettings todos now).
    cbn [List.filter].
    repeat match goal with
           | |- context [negb ?b] => destruct b; cbn [negb]
           end; cbn [length]; lia.
  - intros c Hc. destruct (afterPast_shape c Hc) as [(label & s & e & -> & _) | ->].
    + split; [reflexivity | now exists s].
    + split; [reflexivity | eexists; reflexivity].
  - intros c Hc. unfold getTodayColumns in Hc.
    repeat (apply elem_of_cons in Hc as [-> | Hc]);
      try (split; [reflexivity | eexists; reflexivity]).
    now apply elem_of_nil in Hc.
Qed.

(** X9: the WIP marker is computed for the daily, weekly and monthly
    columns and for no other: the style of each of them is [getWipStyle]
    of its own todos, so it is "wip-exceeded" exactly when the limit is on
    and the column holds more todos than the daily limit; Backlog, Past
    and Later carry no style, whatever they hold, and the columns of the
    Today group carry the style "today". *)
Theorem wip_marker_on_brackets (c : Column) :
  (c ∈ dailyPart ++ weeklyPart ++ monthlyPart ->
   substyle c = Some (getWipStyle planningSettings (colTodos c))
   /\ (substyle c = Some "wip-exceeded"%string
       <-> isLimited (wipLimit planningSettings) = true
           /\ dailyLimit (wipLimit planningSettings) < Z.of_nat (length (colTodos c))))
  /\ (c ∈ [backlogColumn fromISO TodoMatcher settings planningSettings todos; past; later] ->
      substyle c = None)
  /\ (c ∈ todayGroup -> substyle c = Some "today"%string).
Proof.
  split; [|split].
  - intros Hc.
    assert (Hb : isBracket c).
    { rewrite !elem_of_app in Hc. destruct Hc as [H | [H | H]].
      - exact (proj1 (Forall_forall _ _) (dailyBrackets_shape 6 0 _) c H).
      - exact (proj1 (Forall_forall _ _) (weeklyBrackets_shape 4 0 _) c H).
      - exact (proj1 (Forall_forall _ _) (monthlyBrackets_shape 3 0 _) c H). }
    destruct Hb as (label & s & e & -> & _).
    split; [reflexivity|]. unfold bracketColumn. cbn [substyle colTodos todoColumn].
    unfold getWipStyle.
    destruct (isLimited (wipLimit planningSettings)).
    + destruct (Z.ltb_spec (dailyLimit (wipLimit planningSettings))
                  (Z.of_nat (length (query (Some s) (Some e) false)))).
      * split; [auto | reflexivity].
      * split; [discriminate | intros [_ ?]; lia].
    + split; [discriminate | intros [? _]; discriminate].
  - intros Hc. repeat (apply elem_of_cons in Hc as [-> | Hc]); try reflexivity.
    now apply elem_of_nil in Hc.
  - intros Hc. unfold getTodayColumns in Hc.
    repeat (apply elem_of_cons in Hc as [-> | Hc]); try reflexivity.
    now apply elem_of_nil in Hc.
Qed.

(** Reads the drop command of a column off [Some t = Some target]. *)
Ltac read_target H :=
  match type of H with
  | Some ?t = Some ?target =>
      let Ht := fresh in
      assert (Ht : target = t) by congruence; rewrite Ht in *; clear Ht
  end.

(** X10: a drop lands where it was dropped. When the todo that a
    column's drop command leaves passes the search filter, the column
    shows it: a todo whose due date is the date that the command of a
    daily, weekly, monthly or Later column writes is in that column; a
    todo due today with the status that the command of a Today column
    sets is in that column; and a todo without due date is in Backlog
    when it is open and not selected. *)
Theorem drop_lands_in_column (c : Column) (target : DropTarget) (todo : TodoItem) :
  c ∈ todayGroup ++ mainSequence ->
  onTodoDropped c = Some target ->
  todo ∈ shown ->
  carriesDrop fromISO settings target todo ->
  (target = RemoveDate ->
   isSelected settings todo = false /\ statusIsDone (status todo) = false) ->
  todo ∈ colTodos c.
Proof.
  intros Hc Htarget Hin Hcarry Hback.
  assert (Hrange : forall s stop, dueOf todo = Some s ->
            dateIsInRange (Some s) stop (Some s) = true ->
            todo ∈ query (Some s) stop false).
  { intros s stop Hd Hr. apply byDate_unselected.
    split; [exact Hin|]. split; [eauto using dueDate_attributes|]. now rewrite Hd. }
  apply elem_of_app in Hc as [Hc | Hc].
  - unfold getTodayColumns in Hc. change (startOfDay now) with (today now) in Hc.
    assert (Htoday : forall st, dueOf todo = Some (today now) /\ status todo = st ->
              forall statuses, st ∈ statuses ->
              todo ∈ getTodosByDateAndStatus fromISO TodoMatcher settings planningSettings
                       todos (today now) tomorrow statuses).
    { intros st [Hd Hst] statuses Hs. apply byDateAndStatus_elem.
      split; [|now rewrite Hst]. apply byDate_elem. split; [exact Hin|].
      split; [eauto using dueDate_attributes|].
      unfold todoInRange. rewrite Hd. cbn [dateIsInRange].
      rewrite Z.leb_refl, (proj2 (Z.ltb_lt _ _) (plusDays_gt (today now))).
      reflexivity. }
    apply elem_of_cons in Hc as [Heq | Hc];
      [|apply elem_of_cons in Hc as [Heq | Hc];
        [|apply elem_of_cons in Hc as [Heq | Hc]; [|now apply elem_of_nil in Hc]]];
      subst c; cbn [onTodoDropped todoColumn] in Htarget; read_target Htarget;
      cbn [colTodos todoColumn];
      apply (Htoday _ Hcarry);
      repeat first [apply list_elem_of_here | apply list_elem_of_further].
  - rewrite getColumns_split in Hc.
    apply elem_of_cons in Hc as [-> | Hc].
    + cbn [onTodoDropped backlogColumn todoColumn] in Htarget. read_target Htarget.
      destruct Hcarry as [Ha Hd]. destruct (Hback eq_refl) as [Hsel Hopen].
      unfold backlogColumn. cbn [colTodos todoColumn]. apply backlog_elem. auto.
    + apply elem_of_cons in Hc as [-> | Hc]; [discriminate|].
      destruct (afterPast_shape c Hc) as [(label & s & e & -> & Hlt) | ->].
      * cbn [onTodoDropped bracketColumn todoColumn] in Htarget. read_target Htarget.
        unfold bracketColumn. cbn [colTodos todoColumn].
        apply Hrange; [exact Hcarry|]. cbn [dateIsInRange].
        apply andb_true_iff; split; lia.
      * cbn [onTodoDropped laterColumn todoColumn] in Htarget.
        read_target Htarget. unfold laterColumn. cbn [colTodos todoColumn].
        apply Hrange; [exact Hcarry|]. cbn [dateIsInRange].
        now rewrite Z.leb_refl.
Qed.

(** ** The brackets in closed form *)

Lemma dailyBrackets_days (n : nat) (i : Z) :
  dailyBrackets fromISO TodoMatcher settings planningSettings todos n i
    (plusDays (today now) (i + 1))
  = map (dailyColumnOfDay fromISO TodoMatcher settings planningSettings todos now)
      (List.filter (fun k => negb (skipsDay settings (plusDays (today now) k)))
         (seqZ (i + 1) (Z.of_nat n))).
Proof.
  revert i. induction n as [|n IH]; intros i; [reflexivity|].
  rewrite seqZ_cons by lia.
  replace (Z.pred (Z.of_nat (S n))) with (Z.of_nat n) by lia.
  change (Z.succ (i + 1)) with (i + 1 + 1).
  cbn [dailyBrackets List.filter].
  change (negb (showWeekEnds settings)
          && (6 <=? Z.rem (weekday (plusDays (today now) (i + 1))
                           - firstWeekdayOrDefault settings + 7) 7 + 1))
    with (skipsDay settings (plusDays (today now) (i + 1))).
  rewrite plusDays_plusDays.
  destruct (skipsDay settings (plusDays (today now) (i + 1))); cbn [negb map];
    rewrite IH; [reflexivity|].
  f_equal. unfold dailyColumnOfDay, bracketColumn.
  rewrite plusDays_plusDays.
  replace (i + 1 =? 1) with (i =? 0); [reflexivity|].
  destruct (Z.eqb_spec i 0), (Z.eqb_spec (i + 1) 1); lia || reflexivity.
Qed.

(** X11: the daily columns are the columns of the days of the window
    today+1 .. today+6 that are not skipped, in order: the column of the
    day [k] shows the todos due from that day to the next, moves a dropped
    todo to that day, and is labeled "Tomorrow" for [k = 1] and with the
    weekday and date of its day otherwise, also when it comes first
    because tomorrow is skipped. *)
Theorem daily_columns_of_window :
  dailyPart
  = map (dailyColumnOfDay fromISO TodoMatcher settings planningSettings todos now)
      (List.filter (fun k => negb (skipsDay settings (plusDays (today now) k)))
         [1; 2; 3; 4; 5; 6])
  /\ (skipsDay settings tomorrow = true ->
      forall c, c ∈ dailyPart ->
        exists k, 2 <= k <= 6
                  /\ title c = toFormat_cccc_ddMM (plusDays (today now) k)
                  /\ onTodoDropped c = Some (MoveToDate (plusDays (today now) k))).
Proof.
  assert (Hd : dailyPart
    = map (dailyColumnOfDay fromISO TodoMatcher settings planningSettings todos now)
        (List.filter (fun k => negb (skipsDay settings (plusDays (today now) k)))
           [1; 2; 3; 4; 5; 6])) by apply (dailyBrackets_days 6 0).
  split; [exact Hd|].
  intros Hskip c Hc. rewrite Hd in Hc.
  apply list_elem_of_fmap in Hc as (k & -> & Hk).
  apply list_elem_of_In, filter_In in Hk as [Hk Hkeep].
  assert (Hk1 : k <> 1) by (intros ->; rewrite Hskip in Hkeep; discriminate).
  exists k. split; [cbn in Hk; lia|].
  unfold dailyColumnOfDay, bracketColumn. cbn [title onTodoDropped todoColumn].
  now rewrite (proj2 (Z.eqb_neq k 1) Hk1).
Qed.

Lemma plusDays_0 (t : DateTime) : plusDays t 0 = t.
Proof. unfold plusDays. lia. Qed.

Lemma weekday_fixed (t : DateTime) (w k : Z) :
  1 <= w <= 7 -> weekday t = w -> weekday (plusDays t (7 * k)) = w.
Proof.
  intros Hw Ht. rewrite weekday_plusDays, Ht.
  replace (w - 1 + 7 * k) with (w - 1 + k * 7) by lia.
  rewrite Z_mod_plus_full, Z.mod_small; lia.
Qed.

Lemma nextWeek_weekday :
  1 <= firstWeekdayOrDefault settings <= 7 ->
  weekday (plusWeeks (startOfThisWeek settings now) 1) = firstWeekdayOrDefault settings.
Proof.
  intros Hfw.
  assert (H0 : weekday (setWeekday (today now) (firstWeekdayOrDefault settings))
               = firstWeekdayOrDefault settings).
  { unfold setWeekday. rewrite weekday_plusDays.
    replace (weekday (today now) - 1
             + (firstWeekdayOrDefault settings - weekday (today now)))
      with (firstWeekdayOrDefault settings - 1) by lia.
    rewrite Z.mod_small; lia. }
  unfold plusWeeks. apply weekday_fixed; [exact Hfw|].
  unfold startOfThisWeek.
  destruct (today now <? setWeekday (today now) (firstWeekdayOrDefault settings));
    [|exact H0].
  unfold minusWeeks, plusWeeks. now apply weekday_fixed.
Qed.

(** X12: the weekly columns are four consecutive weeks. For a first
    weekday from 1 to 7, the first one, "Next week", starts on the next
    day after today that falls on the first weekday, between tomorrow
    and seven days from today; the column of each week shows the todos
    due in its seven days and moves a dropped todo to its first day. *)
Theorem weekly_columns_aligned :
  let start := plusWeeks (startOfThisWeek settings now) 1 in
  map (fun c => (onTodoDropped c, colTodos c)) weeklyPart
  = map (fun k => (Some (MoveToDate (plusDays start (7 * k))),
                   query (Some (plusDays start (7 * k)))
                     (Some (plusDays start (7 * k + 7))) false))
      [0; 1; 2; 3]
  /\ (1 <= firstWeekdayOrDefault settings <= 7 ->
      weekday start = firstWeekdayOrDefault settings
      /\ tomorrow <= start <= plusDays (today now) 7).
Proof.
  intros start. split.
  - unfold weeklyColumns. fold start. cbn [weeklyBrackets map].
    cbn [onTodoDropped colTodos todoColumn]. unfold plusWeeks.
    rewrite !plusDays_plusDays.
    rewrite <- (plusDays_0 start) at 1 2 3.
    repeat (f_equal; try lia); apply plusDays_0.
  - intros Hfw. split; [now apply nextWeek_weekday|].
    split; [apply next_week_from_tomorrow; lia|].
    unfold start, startOfThisWeek, setWeekday, minusWeeks, plusWeeks, plusDays.
    pose proof (weekday_bound (today now)) as Hw.
    destruct (Z.ltb_spec (today now)
                (today now + (firstWeekdayOrDefault settings - weekday (today now))
                             * MS_PER_DAY));
      unfold MS_PER_DAY in *; lia.
Qed.

Lemma monthStartOf_civil (j : Z) :
  civilFromDays (dayNumber (monthStartOf j)) = (j / 12, j mod 12 + 1, 1)
  /\ timeOfDay (monthStartOf j) = 0.
Proof.
  pose proof (Z.mod_pos_bound j 12 ltac:(lia)) as Hj.
  unfold monthStartOf, ymd, dayNumber, timeOfDay, MS_PER_DAY.
  rewrite Z_div_mult by lia. rewrite Z_mod_mult.
  split; [apply civilFromDays_first; lia | reflexivity].
Qed.

Lemma plusMonths_monthStartOf (j : Z) : plusMonths (monthStartOf j) 1 = monthStartOf (j + 1).
Proof.
  destruct (monthStartOf_civil j) as [Hc Ht].
  unfold plusMonths. rewrite Hc, Ht. cbv beta iota zeta.
  replace (j / 12 * 12 + (j mod 12 + 1 - 1) + 1) with (j + 1)
    by (pose proof (Z.div_mod j 12 ltac:(lia)); lia).
  rewrite Z.min_l by (pose proof (daysInMonth_pos ((j + 1) / 12) ((j + 1) mod 12 + 1)); lia).
  unfold monthStartOf, ymd. apply Z.add_0_r.
Qed.

Lemma dayNumber_today : dayNumber (today now) = dayNumber now.
Proof.
  rewrite today_is_midnight. unfold dayNumber at 1, MS_PER_DAY. apply Z_div_mult. lia.
Qed.

Lemma monthIndex_civil :
  exists d, civilFromDays (dayNumber now)
            = (monthIndex now / 12, monthIndex now mod 12 + 1, d)
            /\ 1 <= d <= daysInMonth (monthIndex now / 12) (monthIndex now mod 12 + 1).
Proof.
  unfold monthIndex.
  destruct (civilFromDays (dayNumber now)) as [[y m] d] eqn:Hc.
  apply civilFromDays_spec in Hc as (Hm & Hd & _).
  rewrite (month_index_div y m Hm), (month_index_mod y m Hm).
  replace (m - 1 + 1) with m by lia. now exists d.
Qed.

Lemma nextMonth_index :
  plusMonths (startOfMonth (today now)) 1 = monthStartOf (monthIndex now + 1).
Proof.
  rewrite <- plusMonths_monthStartOf. f_equal.
  destruct monthIndex_civil as (d & Hc & _).
  unfold startOfMonth. rewrite dayNumber_today, Hc.
  unfold monthStartOf, ymd. cbv beta iota zeta. reflexivity.
Qed.

Lemma monthlyBrackets_from (j : Z) :
  monthlyBrackets fromISO TodoMatcher settings planningSettings todos 3 0 (monthStartOf j)
  = ([ bracket "Next month" (monthStartOf j) (monthStartOf (j + 1));
       bracket (periodLabel "Month" 1 (monthStartOf (j + 1)) (monthStartOf (j + 2)))
         (monthStartOf (j + 1)) (monthStartOf (j + 2));
       bracket (periodLabel "Month" 2 (monthStartOf (j + 2)) (monthStartOf (j + 3)))
         (monthStartOf (j + 2)) (monthStartOf (j + 3)) ],
     monthStartOf (j + 3)).
Proof.
  cbn [monthlyBrackets]. rewrite !plusMonths_monthStartOf.
  replace (j + 1 + 1) with (j + 2) by lia.
  replace (j + 2 + 1) with (j + 3) by lia.
  reflexivity.
Qed.

(** X13: the monthly columns are the three calendar months that follow
    the month of [now], and Later starts with the fourth: each of these
    columns starts at midnight of the first day of its month, ends where
    the next one starts and moves a dropped todo to its first day; Later
    has no end. *)
Theorem monthly_columns_aligned :
  map (fun c => (onTodoDropped c, colTodos c)) (monthlyPart ++ [later])
  = [ (Some (MoveToDate (monthStartOf (monthIndex now + 1))),
       query (Some (monthStartOf (monthIndex now + 1)))
         (Some (monthStartOf (monthIndex now + 2))) false);
      (Some (MoveToDate (monthStartOf (monthIndex now + 2))),
       query (Some (monthStartOf (monthIndex now + 2)))
         (Some (monthStartOf (monthIndex now + 3))) false);
      (Some (MoveToDate (monthStartOf (monthIndex now + 3))),
       query (Some (monthStartOf (monthIndex now + 3)))
         (Some (monthStartOf (monthIndex now + 4))) false);
      (Some (MoveToDate (monthStartOf (monthIndex now + 4))),
       query (Some (monthStartOf (monthIndex now + 4))) None false) ]
  /\ (exists d, civilFromDays (dayNumber now)
                = (monthIndex now / 12, monthIndex now mod 12 + 1, d))
  /\ (forall j, civilFromDays (dayNumber (monthStartOf j)) = (j / 12, j mod 12 + 1, 1)
                /\ timeOfDay (monthStartOf j) = 0).
Proof.
  split; [|split].
  - unfold laterColumn, monthlyColumns.
    rewrite !nextMonth_index, !monthlyBrackets_from.
    replace (monthIndex now + 1 + 1) with (monthIndex now + 2) by lia.
    replace (monthIndex now + 1 + 2) with (monthIndex now + 3) by lia.
    replace (monthIndex now + 1 + 3) with (monthIndex now + 4) by lia.
    generalize (monthStartOf (monthIndex now + 1)), (monthStartOf (monthIndex now + 2)),
      (monthStartOf (monthIndex now + 3)), (monthStartOf (monthIndex now + 4)).
    reflexivity.
  - destruct monthIndex_civil as (d & Hc & _). now exists d.
  - apply monthStartOf_civil.
Qed.

(** ** The drop commands *)

Lemma findTodo_some (id : string) (todo : TodoItem) :
  findTodo todos id = Some todo -> todo ∈ todos /\ todoId todo = id.
Proof.
  unfold findTodo. intros H. apply find_some in H as [Hin Heq].
  split; [now apply list_elem_of_In | now apply String.eqb_eq].
Qed.

Lemma findTodo_none (id : string) :
  findTodo todos id = None <-> forall todo, todo ∈ todos -> todoId todo <> id.
Proof.
  unfold findTodo. split.
  - intros H todo Hin Heq. apply list_elem_of_In in Hin.
    pose proof (find_none _ _ H todo Hin) as Hn. cbn in Hn.
    apply String.eqb_neq in Hn. contradiction.
  - intros H. destruct (List.find _ todos) as [todo|] eqn:Hf; [|reflexivity].
    apply find_some in Hf as [Hin Heq]. apply String.eqb_eq in Heq.
    apply list_elem_of_In in Hin. now destruct (H todo Hin).
Qed.

Lemma moveToDateAndStatus_issued (date : DateTime) (st : TodoStatus) (id : string)
    (todo : TodoItem) :
  findTodo todos id = Some todo ->
  let todo' := setStatus todo st in
  issued (moveToDateAndStatus persist settings todos now date st id)
  = UpdateAttribute todo' (dueDateAttribute settings) (toISODate date)
    :: (if persist (UpdateAttribute todo' (dueDateAttribute settings) (toISODate date))
        then UpdateTodoStatus todo' (completedDateAttribute settings)
             :: (if persist (UpdateTodoStatus todo' (completedDateAttribute settings))
                    && (trackStartTime settings && startedIsEmpty settings todo
                        && bool_decide (st = InProgress))
                 then [UpdateAttribute todo' (startedAttribute settings) (toISODate now)]
                 else [])
        else []).
Proof.
  intros Hf todo'. unfold moveToDateAndStatus. rewrite Hf. fold todo'.
  unfold trackStart, startedIsEmpty.
  unfold updateAttributeAsync, updateTodoStatus, request, andThen, resolved.
  change (attributes todo') with (attributes todo).
  generalize (UpdateAttribute todo' (dueDateAttribute settings) (toISODate date)),
    (UpdateTodoStatus todo' (completedDateAttribute settings)),
    (UpdateAttribute todo' (startedAttribute settings) (toISODate now)).
  intros r1 r2 r3.
  destruct (persist r1); [|reflexivity].
  destruct (persist r2); [|reflexivity].
  destruct (trackStartTime settings); [|reflexivity].
  destruct (attributes todo) as [attrs|]; [|reflexivity].
  cbn [andb]. destruct (negb _ && bool_decide (st = InProgress)); [|reflexivity].
  now destruct (persist r3).
Qed.

(** X14: a drop command touches nothing but the todo that it names. For
    every drop command and identifier: when no todo of the snapshot has
    the identifier, no request is issued; otherwise every request that is
    issued is about the todo of the snapshot that [findTodo] returns for
    the identifier, with its attribute mapping as it is in the snapshot, and it writes
    the due date attribute or the started attribute or updates the
    status; at most three requests are issued, at most one by a command
    that sets no status. *)
Theorem drop_commands_name_one_todo (target : DropTarget) (id : string) :
  let tr := runDrop persist settings todos now target id in
  ((forall todo, todo ∈ todos -> todoId todo <> id) -> issued tr = [])
  /\ (forall r, r ∈ issued tr ->
        exists todo, findTodo todos id = Some todo
                     /\ todo ∈ todos
                     /\ todoId (requestTodo r) = id
                     /\ attributes (requestTodo r) = attributes todo
                     /\ requestAttribute r
                        ∈ [Some (dueDateAttribute settings); None;
                           Some (startedAttribute settings)])
  /\ (length (issued tr) <= 3)%nat
  /\ ((forall date st, target <> MoveToDateAndStatus date st) ->
      (length (issued tr) <= 1)%nat).
Proof.
  intros tr.
  assert (Hlist : exists l,
            issued tr = l /\ (length l <= 3)%nat
            /\ ((forall date st, target <> MoveToDateAndStatus date st) ->
                (length l <= 1)%nat)
            /\ match findTodo todos id with
               | None => l = []
               | Some todo =>
                   Forall (fun r => todoId (requestTodo r) = todoId todo
                                    /\ attributes (requestTodo r) = attributes todo
                                    /\ requestAttribute r
                                       ∈ [Some (dueDateAttribute settings); None;
                                          Some (startedAttribute settings)]) l
               end).
  { unfold tr. destruct target as [date | date st |]; cbn [runDrop].
    - unfold moveToDate, updateAttributeAsync, request.
      destruct (findTodo todos id) as [todo|].
      + eexists. split; [destruct (persist _); reflexivity|].
        split; [cbn; lia|]. split; [cbn; lia|].
        repeat constructor.
      + exists []. repeat split; cbn; auto; lia.
    - destruct (findTodo todos id) as [todo|] eqn:Hf.
      + rewrite (moveToDateAndStatus_issued date st id todo Hf).
        eexists. split; [reflexivity|].
        split; [|split; [intros H; now destruct (H date st)|]].
        * destruct (persist _); [destruct (_ && _)|]; cbn; lia.
        * destruct (persist _); [destruct (_ && _)|]; repeat constructor;
            repeat first [apply list_elem_of_here | apply list_elem_of_further].
      + unfold moveToDateAndStatus. rewrite Hf.
        exists []. repeat split; cbn; auto; lia.
    - unfold removeDate, removeAttributeAsync, request.
      destruct (findTodo todos id) as [todo|].
      + eexists. split; [destruct (persist _); reflexivity|].
        split; [cbn; lia|]. split; [cbn; lia|].
        repeat constructor.
      + exists []. repeat split; cbn; auto; lia. }
  destruct Hlist as (l & -> & Hlen & Hone & Hall).
  split; [|split; [|split; [exact Hlen | exact Hone]]].
  - intros Hnone. apply findTodo_none in Hnone. now rewrite Hnone in Hall.
  - intros r Hr. destruct (findTodo todos id) as [todo|] eqn:Hf.
    + destruct (findTodo_some id todo Hf) as [Hin Hid].
      exists todo. rewrite Forall_forall in Hall.
      destruct (Hall r Hr) as (H1 & H2 & H3). rewrite Hid in H1. auto.
    + subst l. now apply elem_of_nil in Hr.
Qed.

(** ** The class of the Today group *)

(** X15: the style of the Today group distinguishes three cases where
    [getWipStyle] has two. With the limit off it is the empty string;
    with the limit on it is the marker when the open todos of today
    exceed the daily limit, and otherwise it is no value at all (the
    function ends without [return]), which the template literal of the
    class name prints as the word "undefined". *)
Theorem today_group_class :
  let limit := wipLimit planningSettings in
  let count :=
    Z.of_nat (length (getTodosByDateAndStatus fromISO TodoMatcher settings
                        planningSettings todos (today now) tomorrow
                        [AttentionRequired; Delegated; InProgress; Todo])) in
  let className := todayClassName fromISO TodoMatcher settings planningSettings todos now in
  (isLimited limit = false <-> className = "pw-planning-today "%string)
  /\ (isLimited limit = true /\ dailyLimit limit < count
      <-> className = "pw-planning-today pw-planning-column-content--wip-exceeded"%string)
  /\ (isLimited limit = true /\ count <= dailyLimit limit
      <-> className = "pw-planning-today undefined"%string)
  /\ (getTodayWipStyle fromISO TodoMatcher settings planningSettings todos now = None
      <-> isLimited limit = true /\ count <= dailyLimit limit).
Proof.
  intros limit count className. unfold className, todayClassName, getTodayWipStyle.
  fold (today now). fold limit. fold count.
  destruct (isLimited limit); cbn [negb].
  - destruct (Z.ltb_spec (dailyLimit limit) count); cbn;
      repeat split; intros; try discriminate; try lia;
      repeat match goal with H : _ /\ _ |- _ => destruct H end;
      try discriminate; try lia; auto.
  - cbn. repeat split; intros; try discriminate;
      repeat match goal with H : _ /\ _ |- _ => destruct H end;
      try discriminate; auto.
Qed.

End Board.

(** ** The status component *)

Section StatusComponent.

Variable persist : Request -> bool.
Variable settings : ProletarianWizardSettings.

Abbreviation click todo := (snd (onclick persist settings false todo)).

(** X16: a click flips a todo between done and open. The status that a
    click leaves is [Todo] or [Complete], done exactly when the status
    before was open; the identifier and the attributes are kept. A
    second click restores the status exactly when it was [Todo] or
    [Complete]: from [Canceled] two clicks lead to [Complete], and from
    [InProgress], [AttentionRequired] and [Delegated] to [Todo]; three
    clicks do what one does. *)
Theorem click_flips_done (todo : TodoItem) :
  statusIsDone (status (click todo)) = negb (statusIsDone (status todo))
  /\ (status (click todo) = Todo \/ status (click todo) = Complete)
  /\ todoId (click todo) = todoId todo
  /\ attributes (click todo) = attributes todo
  /\ (click (click todo) = todo <-> status todo = Todo \/ status todo = Complete)
  /\ click (click (click todo)) = click todo.
Proof.
  destruct todo as [id st attrs].
  unfold onclick, toggledStatus, setStatus. cbn [snd status todoId attributes].
  destruct st; cbn; repeat split; auto; intros; try discriminate;
    repeat match goal with H : _ \/ _ |- _ => destruct H end; try discriminate.
Qed.

(** X17: a click that was prevented does nothing, and a click never
    requests more than the one status update: the todo is unchanged and
    no event happens when the default was prevented; otherwise exactly
    one request is issued, whether the file operation succeeds or
    fails, and exactly one debug message is logged, without warning. *)
Theorem click_requests_once (todo : TodoItem) (defaultPrevented : bool) :
  let result := onclick persist settings defaultPrevented todo in
  (defaultPrevented = true -> result = ([], todo))
  /\ (defaultPrevented = false ->
      length (issued (fst result)) = 1%nat
      /\ warnings (fst result) = []
      /\ sequential (fst result) = true
      /\ exists msg, List.filter (fun e => match e with LogDebug _ => true | _ => false end)
                       (fst result) = [LogDebug msg]).
Proof.
  intros result. split.
  - intros ->. reflexivity.
  - intros ->. unfold result, onclick, updateTodoStatus, request.
    assert (Heqb : forall r, Request_eqb r r = true).
    { intros [t a v | t a | t a]; cbn;
        rewrite ?String.eqb_refl, ?bool_decide_eq_true_2; reflexivity. }
    destruct (persist _); cbn [fst issued length warnings omap List.filter];
      unfold sequential; cbn [sequentialFrom negb andb]; rewrite Heqb;
      repeat split; eauto.
Qed.

(** X18: the status icons tell the statuses apart: every status has an
    icon, never the empty string of the default branch, and two statuses
    with the same icon are the same status. *)
Theorem statusToIcon_injective (s s' : TodoStatus) :
  statusToIcon s <> ""%string
  /\ (statusToIcon s = statusToIcon s' -> s = s').
Proof.
  split; [now destruct s|].
  destruct s, s'; intros H; try reflexivity; discriminate H.
Qed.

(** X19: the status menu offers every status exactly once, and its
    items set the status unconditionally: the secondary click shows no
    menu when the default was prevented and otherwise a menu in which
    each of the six statuses is the status of exactly one item; the
    click on the item of a status leaves the todo with that status,
    whatever its status was, its identifier and attributes kept, and
    requests one status update for the todo so changed. *)
Theorem status_menu_complete (s : TodoStatus) (todo : TodoItem) :
  onauxclick true = None
  /\ (exists menu,
        onauxclick false = Some menu
        /\ length (List.filter (fun item => bool_decide (itemStatus item = s)) menu)
           = 1%nat)
  /\ (let result := changeStatusMenuItem persist settings s todo in
      status (snd result) = s
      /\ todoId (snd result) = todoId todo
      /\ attributes (snd result) = attributes todo
      /\ issued (fst result)
         = [UpdateTodoStatus (snd result) (completedDateAttribute settings)]).
Proof.
  split; [reflexivity|]. split.
  - exists statusMenu. split; [reflexivity|]. now destruct s.
  - unfold changeStatusMenuItem, updateTodoStatus, request. cbn [snd].
    repeat split. now destruct (persist _).
Qed.

End StatusComponent.

(** ** The titles, which are the keys of the columns *)

Section Titles.

Variable fromISO : string -> option DateTime.
Variable TodoMatcher : string -> bool -> TodoItem -> bool.
Variable settings : ProletarianWizardSettings.
Variable planningSettings : PlanningSettings.
Variable todos : list TodoItem.
Variable now : DateTime.

Lemma weeklyBrackets_from (start : DateTime) :
  map title (weeklyBrackets fromISO TodoMatcher settings planningSettings todos 4 0 start)
  = [ "Next week"%string;
      periodLabel "Week" 1 (plusWeeks start 1) (plusWeeks (plusWeeks start 1) 1);
      periodLabel "Week" 2 (plusWeeks (plusWeeks start 1) 1)
        (plusWeeks (plusWeeks (plusWeeks start 1) 1) 1);
      periodLabel "Week" 3 (plusWeeks (plusWeeks (plusWeeks start 1) 1) 1)
        (plusWeeks (plusWeeks (plusWeeks (plusWeeks start 1) 1) 1) 1) ].
Proof. reflexivity. Qed.

Lemma periodLabel_key (kind : string) (i : Z) (start stop : DateTime) (n : string) :
  pretty (i + 1) = n ->
  periodLabel kind i start stop
  = String.app kind (String.app " +" (String.app n
      (String.app " (" (String.app (toFormat_ddMM start)
      (String.app " - " (String.app (toFormat_ddMM (minusDays stop 1)) ")")))))).
Proof. intros <-. reflexivity. Qed.

Lemma pretty_small : pretty (1 + 1) = "2"%string /\ pretty (2 + 1) = "3"%string
                     /\ pretty (3 + 1) = "4"%string.
Proof. repeat split; vm_compute; reflexivity. Qed.

Lemma daily_title_key (k w : Z) :
  weekday (today now) = w -> k <> 1 ->
  titleKey (title (dailyColumnOfDay fromISO TodoMatcher settings planningSettings todos
                     now k))
  = titleKey (String.app (weekdayName ((w - 1 + k) mod 7 + 1)) " ").
Proof.
  intros Hw Hk. unfold dailyColumnOfDay, bracketColumn. cbn [title todoColumn].
  rewrite (proj2 (Z.eqb_neq k 1) Hk). unfold toFormat_cccc_ddMM.
  rewrite weekday_plusDays, Hw.
  generalize (toFormat_ddMM (plusDays (today now) k)). intros tail.
  assert (Hn : 1 <= (w - 1 + k) mod 7 + 1 <= 7)
    by (pose proof (Z.mod_pos_bound (w - 1 + k) 7 ltac:(lia)); lia).
  generalize dependent ((w - 1 + k) mod 7 + 1). intros n Hn.
  assert (Hc : n = 1 \/ n = 2 \/ n = 3 \/ n = 4 \/ n = 5 \/ n = 6 \/ n = 7) by lia.
  repeat (destruct Hc as [-> | Hc]); try subst n; reflexivity.
Qed.

Abbreviation dayTitle k :=
  (title (dailyColumnOfDay fromISO TodoMatcher settings planningSettings todos now k)).

Lemma main_sequence_titles :
  exists week1 week2 week3 week4 month1 month2 month3,
    map title (getColumns fromISO TodoMatcher settings planningSettings todos now)
    = "Backlog"%string :: "Past"%string
      :: map (fun k => dayTitle k)
           (List.filter (fun k => negb (skipsDay settings (plusDays (today now) k)))
              [1; 2; 3; 4; 5; 6])
      ++ [ "Next week"%string; periodLabel "Week" 1 week1 week2;
           periodLabel "Week" 2 week2 week3; periodLabel "Week" 3 week3 week4;
           "Next month"%string; periodLabel "Month" 1 month1 month2;
           periodLabel "Month" 2 month2 month3; "Later"%string ].
Proof.
  do 7 eexists. rewrite getColumns_split. unfold futureColumns.
  cbn [map]. rewrite !map_app.
  rewrite (proj1 (daily_columns_of_window fromISO TodoMatcher settings planningSettings
                    todos now)).
  unfold weeklyColumns. rewrite weeklyBrackets_from.
  unfold monthlyColumns.
  rewrite nextMonth_index, monthlyBrackets_from.
  rewrite map_map. cbn [fst map app title bracketColumn todoColumn laterColumn].
  reflexivity.
Qed.

(** X20: the titles of the main sequence are pairwise distinct, whatever
    the date, the first weekday and the days that are skipped; the titles
    are the keys under which the columns are rendered. The same holds for
    the three titles of the Today group. *)
Theorem column_titles_distinct :
  NoDup (map title (getColumns fromISO TodoMatcher settings planningSettings todos now))
  /\ NoDup (map title (getTodayColumns fromISO TodoMatcher settings planningSettings
                         todos now)).
Proof.
  split.
  - destruct main_sequence_titles
      as (w1 & w2 & w3 & w4 & m1 & m2 & m3 & ->).
    apply (sublist_NoDup _
             ("Backlog"%string :: "Past"%string
              :: map (fun k => dayTitle k) [1; 2; 3; 4; 5; 6]
              ++ [ "Next week"%string; periodLabel "Week" 1 w1 w2;
                   periodLabel "Week" 2 w2 w3; periodLabel "Week" 3 w3 w4;
                   "Next month"%string; periodLabel "Month" 1 m1 m2;
                   periodLabel "Month" 2 m2 m3; "Later"%string ])).
    + apply (NoDup_fmap_1 titleKey).
      pose proof (weekday_bound (today now)) as Hw.
      destruct pretty_small as (P2 & P3 & P4).
      cbn [fmap list_fmap map app].
      rewrite (daily_title_key 2 _ eq_refl), (daily_title_key 3 _ eq_refl),
        (daily_title_key 4 _ eq_refl), (daily_title_key 5 _ eq_refl),
        (daily_title_key 6 _ eq_refl) by lia.
      rewrite (periodLabel_key "Week" 1 _ _ _ P2), (periodLabel_key "Week" 2 _ _ _ P3),
        (periodLabel_key "Week" 3 _ _ _ P4), (periodLabel_key "Month" 1 _ _ _ P2),
        (periodLabel_key "Month" 2 _ _ _ P3).
      repeat match goal with
             | |- context [toFormat_ddMM ?t] => generalize (toFormat_ddMM t); intro
             end.
      generalize dependent (weekday (today now)). intros w Hw.
      assert (Hc : w = 1 \/ w = 2 \/ w = 3 \/ w = 4 \/ w = 5 \/ w = 6 \/ w = 7) by lia.
      clear Hw.
      repeat (destruct Hc as [-> | Hc]); try subst w;
        refine (bool_decide_unpack _ _); vm_compute; exact I.
    + do 2 apply sublist_skip. apply sublist_app; [|reflexivity].
      apply (fmap_sublist (fun k => dayTitle k)), filter_sublist_of.
  - refine (bool_decide_unpack _ _). vm_compute. exact I.
Qed.

End Titles.

(** ** The further properties on the sample inputs *)

Module OnSampleBoard.

Import Sample.

Abbreviation plan := [item1; item2; item3].

Lemma columns_show_sublists_witness :
  laterColumn fromISODate matchAll settings planning snapshot monday
  ∈ getTodayColumns fromISODate matchAll settings planning snapshot monday
    ++ getColumns fromISODate matchAll settings planning snapshot monday
  /\ colTodos (laterColumn fromISODate matchAll settings planning snapshot monday)
     `sublist_of` snapshot.
Proof.
  assert (H : laterColumn fromISODate matchAll settings planning snapshot monday
              ∈ getTodayColumns fromISODate matchAll settings planning snapshot monday
                ++ getColumns fromISODate matchAll settings planning snapshot monday).
  { apply elem_of_app. right.
    apply (list_elem_of_lookup_2 _ 15). vm_compute. reflexivity. }
  split; [exact H|].
  exact (proj2 (columns_show_sublists fromISODate matchAll settings planning snapshot
                  monday _ H)).
Defined.

Lemma query_monotone_witness :
  (forall d, dateIsInRange (Some (ymd 2024 6 10)) (Some (ymd 2024 6 11)) (Some d) = true ->
             dateIsInRange (Some (ymd 2024 6 10)) None (Some d) = true)
  /\ getTodosByDate fromISODate matchAll settings planning snapshot
       (Some (ymd 2024 6 10)) (Some (ymd 2024 6 11)) true
     `sublist_of` getTodosByDate fromISODate matchAll settings planning snapshot
                    (Some (ymd 2024 6 10)) None true.
Proof.
  assert (H : forall d,
            dateIsInRange (Some (ymd 2024 6 10)) (Some (ymd 2024 6 11)) (Some d) = true ->
            dateIsInRange (Some (ymd 2024 6 10)) None (Some d) = true).
  { intros d. cbn [dateIsInRange]. intros Hd. apply andb_true_iff in Hd as [Hd _].
    now rewrite Hd. }
  split; [exact H|].
  exact (proj2 (query_monotone fromISODate matchAll settings planning snapshot
                  (Some (ymd 2024 6 10)) (Some (ymd 2024 6 11))
                  (Some (ymd 2024 6 10)) None true) H).
Defined.

Lemma backlog_is_exclusive_witness :
  undated ∈ getTodosWithNoDate fromISODate matchAll settings planning [undated; pinned]
  /\ forall from to includeSelected,
       undated ∉ getTodosByDate fromISODate matchAll settings planning [undated; pinned]
                   from to includeSelected.
Proof.
  assert (H : undated ∈ getTodosWithNoDate fromISODate matchAll settings planning
                          [undated; pinned])
    by (apply list_elem_of_In; vm_compute; tauto).
  split; [exact H|].
  exact (proj1 (backlog_is_exclusive fromISODate matchAll settings planning
                  [undated; pinned] monday undated H)).
Defined.

Lemma selected_todo_today_witness :
  (pinned ∈ filteredTodos matchAll planning snapshot
   /\ isSelected settings pinned = true
   /\ statusIsDone (status pinned) = false)
  /\ pinned ∉ getTodosWithNoDate fromISODate matchAll settings planning snapshot.
Proof.
  assert (H1 : pinned ∈ filteredTodos matchAll planning snapshot)
    by (apply list_elem_of_In; vm_compute; tauto).
  assert (H2 : isSelected settings pinned = true) by (vm_compute; reflexivity).
  assert (H3 : statusIsDone (status pinned) = false) by reflexivity.
  split; [auto|].
  exact (proj1 (proj1 (selected_todo_today fromISODate matchAll settings planning snapshot
                         monday pinned H1 H2) H3)).
Defined.

Lemma due_today_only_in_today_group_witness :
  (1 <= firstWeekdayOrDefault settings
   /\ dueMonday ∈ filteredTodos matchAll planning snapshot
   /\ findTodoDate fromISODate dueMonday (dueDateAttribute settings) = Some (ymd 2024 6 10)
   /\ today monday <= ymd 2024 6 10 < plusDays (today monday) 1)
  /\ bucketsOf dueMonday (getColumns fromISODate matchAll settings planning snapshot monday)
     = [].
Proof.
  assert (H1 : 1 <= firstWeekdayOrDefault settings) by (vm_compute; discriminate).
  assert (H2 : dueMonday ∈ filteredTodos matchAll planning snapshot)
    by (apply list_elem_of_In; vm_compute; tauto).
  assert (H3 : findTodoDate fromISODate dueMonday (dueDateAttribute settings)
               = Some (ymd 2024 6 10)) by (vm_compute; reflexivity).
  assert (H4 : today monday <= ymd 2024 6 10 < plusDays (today monday) 1)
    by (vm_compute; split; [discriminate | reflexivity]).
  split; [auto|].
  exact (proj1 (due_today_only_in_today_group fromISODate matchAll settings planning
                  snapshot monday dueMonday (ymd 2024 6 10) H1 H2 H3 H4)).
Defined.

Lemma overdue_done_todo_witness :
  (1 <= firstWeekdayOrDefault settings
   /\ doneEarly ∈ filteredTodos matchAll planning snapshot
   /\ findTodoDate fromISODate doneEarly (dueDateAttribute settings) = Some (ymd 2024 6 10)
   /\ ymd 2024 6 10 < today wednesday
   /\ statusIsDone (status doneEarly) = true)
  /\ bucketsOf doneEarly
       (getColumns fromISODate matchAll settings planning snapshot wednesday) = [].
Proof.
  assert (H1 : 1 <= firstWeekdayOrDefault settings) by (vm_compute; discriminate).
  assert (H2 : doneEarly ∈ filteredTodos matchAll planning snapshot)
    by (apply list_elem_of_In; vm_compute; tauto).
  assert (H3 : findTodoDate fromISODate doneEarly (dueDateAttribute settings)
               = Some (ymd 2024 6 10)) by (vm_compute; reflexivity).
  assert (H4 : ymd 2024 6 10 < today wednesday) by (vm_compute; reflexivity).
  assert (H5 : statusIsDone (status doneEarly) = true) by reflexivity.
  split; [auto|].
  exact (proj1 (overdue_done_todo fromISODate matchAll settings planning snapshot
                  wednesday doneEarly (ymd 2024 6 10) H1 H2 H3 H4 H5)).
Defined.

Lemma main_sequence_layout_witness :
  laterColumn fromISODate matchAll settings planning snapshot monday
  ∈ futureColumns fromISODate matchAll settings planning snapshot monday
  /\ hideIfEmpty (laterColumn fromISODate matchAll settings planning snapshot monday)
     = hideEmpty planning.
Proof.
  assert (H : laterColumn fromISODate matchAll settings planning snapshot monday
              ∈ futureColumns fromISODate matchAll settings planning snapshot monday).
  { apply (list_elem_of_lookup_2 _ 13). vm_compute. reflexivity. }
  split; [exact H|].
  exact (proj1 (proj1 (proj2 (proj2
           (main_sequence_layout fromISODate matchAll settings planning snapshot monday)))
           _ H)).
Defined.

Lemma wip_marker_on_brackets_witness :
  laterColumn fromISODate matchAll settings planning snapshot monday
  ∈ [backlogColumn fromISODate matchAll settings planning snapshot;
     pastColumn fromISODate matchAll settings planning snapshot monday;
     laterColumn fromISODate matchAll settings planning snapshot monday]
  /\ substyle (laterColumn fromISODate matchAll settings planning snapshot monday) = None.
Proof.
  assert (H : laterColumn fromISODate matchAll settings planning snapshot monday
              ∈ [backlogColumn fromISODate matchAll settings planning snapshot;
                 pastColumn fromISODate matchAll settings planning snapshot monday;
                 laterColumn fromISODate matchAll settings planning snapshot monday])
    by (do 2 apply list_elem_of_further; apply list_elem_of_here).
  split; [exact H|].
  exact (proj1 (proj2
           (wip_marker_on_brackets fromISODate matchAll settings planning snapshot monday
              _)) H).
Defined.

Lemma drop_lands_in_column_witness :
  let tuesday := dailyColumnOfDay fromISODate matchAll settings planning plan monday 1 in
  (tuesday ∈ getTodayColumns fromISODate matchAll settings planning plan monday
             ++ getColumns fromISODate matchAll settings planning plan monday
   /\ onTodoDropped tuesday = Some (MoveToDate (ymd 2024 6 11))
   /\ item2 ∈ filteredTodos matchAll planning plan
   /\ carriesDrop fromISODate settings (MoveToDate (ymd 2024 6 11)) item2)
  /\ item2 ∈ colTodos tuesday.
Proof.
  intros tuesday.
  assert (H1 : tuesday ∈ getTodayColumns fromISODate matchAll settings planning plan monday
                         ++ getColumns fromISODate matchAll settings planning plan monday).
  { apply elem_of_app. right.
    apply (list_elem_of_lookup_2 _ 2). vm_compute. reflexivity. }
  assert (H2 : onTodoDropped tuesday = Some (MoveToDate (ymd 2024 6 11)))
    by (vm_compute; reflexivity).
  assert (H3 : item2 ∈ filteredTodos matchAll planning plan)
    by (apply list_elem_of_In; vm_compute; tauto).
  assert (H4 : carriesDrop fromISODate settings (MoveToDate (ymd 2024 6 11)) item2)
    by (vm_compute; reflexivity).
  split; [auto|].
  apply (drop_lands_in_column fromISODate matchAll settings planning plan monday
           tuesday (MoveToDate (ymd 2024 6 11)) item2 H1 H2 H3 H4).
  intros H. discriminate H.
Defined.

Lemma daily_columns_of_window_witness :
  skipsDay weekdaysOnly (plusDays (today friday) 1) = true
  /\ forall c, c ∈ dailyColumns fromISODate matchAll weekdaysOnly planning snapshot friday ->
       exists k, 2 <= k <= 6
                 /\ title c = toFormat_cccc_ddMM (plusDays (today friday) k)
                 /\ onTodoDropped c = Some (MoveToDate (plusDays (today friday) k)).
Proof.
  assert (H : skipsDay weekdaysOnly (plusDays (today friday) 1) = true)
    by (vm_compute; reflexivity).
  split; [exact H|].
  exact (proj2 (daily_columns_of_window fromISODate matchAll weekdaysOnly planning
                  snapshot friday) H).
Defined.

Lemma weekly_columns_aligned_witness :
  1 <= firstWeekdayOrDefault settings <= 7
  /\ weekday (plusWeeks (startOfThisWeek settings wednesday) 1)
     = firstWeekdayOrDefault settings.
Proof.
  assert (H : 1 <= firstWeekdayOrDefault settings <= 7)
    by (vm_compute; split; discriminate).
  split; [exact H|].
  exact (proj1 (proj2 (weekly_columns_aligned fromISODate matchAll settings planning
                         snapshot wednesday) H)).
Defined.

Lemma drop_commands_name_one_todo_witness :
  (forall todo, todo ∈ snapshot -> todoId todo <> "notes.md:99"%string)
  /\ issued (runDrop allSucceed settings snapshot monday RemoveDate "notes.md:99") = [].
Proof.
  assert (H : forall todo, todo ∈ snapshot -> todoId todo <> "notes.md:99"%string).
  { intros todo Hin. unfold snapshot in Hin.
    repeat (apply elem_of_cons in Hin as [-> | Hin]); try discriminate.
    now apply elem_of_nil in Hin. }
  split; [exact H|].
  exact (proj1 (drop_commands_name_one_todo allSucceed settings snapshot monday
                  RemoveDate "notes.md:99") H).
Defined.

Lemma click_requests_once_witness :
  true = true
  /\ onclick allSucceed settings true dueMonday = ([], dueMonday).
Proof.
  split; [reflexivity|].
  exact (proj1 (click_requests_once allSucceed settings dueMonday true) eq_refl).
Defined.

Lemma statusToIcon_injective_witness :
  statusToIcon Todo = statusToIcon Todo /\ Todo = Todo.
Proof.
  split; [reflexivity|].
  exact (proj2 (statusToIcon_injective Todo Todo) eq_refl).
Defined.

End OnSampleBoard.
